(** * Patent pipeline and search service: a shallow embedding

    The development follows the two programs of the repository:

    - [Pipeline.py], the batch script that flattens the patent JSON into
      records, writes two DuckDB tables and fills a ChromaDB collection;
    - [app.py], the FastAPI service whose [/search] endpoint embeds the
      query and returns the three nearest stored documents.

    Modelling conventions.  Text is a [string] of 8-bit characters and
    [str.lower], [str.strip] act on its ASCII part; JSON numbers are the
    integers, kept as they are (as Chroma keeps those of 64 bits).  SHA-256 is implemented in full.  The collaborators that
    the scripts only call (the sentence-transformer model, Python's
    [repr] of containers, [json.dumps]) are the fields of the class
    [Collaborators].  The DuckDB file and the Chroma directory are the
    two finite maps of the record [store], and a script run is a
    computation in a state-and-exception monad over it: what was written
    before an exception stays written.  A call to a store raises only
    where its definition says so. *)

From Stdlib Require Import ZArith QArith Ascii String List.
From stdpp Require Import base option list strings pretty gmap fin_maps.

Set Warnings "-register-all".
Local Open Scope Z_scope.

(** ** SHA-256 ([hashlib.sha256(...).hexdigest()]) *)

Module SHA256.

Definition w32 (x : Z) : Z := x mod 2 ^ 32.

Definition rotr (n x : Z) : Z :=
  Z.lor (Z.shiftr x n) (w32 (Z.shiftl x (32 - n))).

Definition Ch (x y z : Z) : Z :=
  Z.lxor (Z.land x y) (Z.land (Z.lxor x (2 ^ 32 - 1)) z).

Definition Maj (x y z : Z) : Z :=
  Z.lxor (Z.lxor (Z.land x y) (Z.land x z)) (Z.land y z).

Definition Sigma0 (x : Z) : Z := Z.lxor (Z.lxor (rotr 2 x) (rotr 13 x)) (rotr 22 x).
Definition Sigma1 (x : Z) : Z := Z.lxor (Z.lxor (rotr 6 x) (rotr 11 x)) (rotr 25 x).
Definition sigma0 (x : Z) : Z := Z.lxor (Z.lxor (rotr 7 x) (rotr 18 x)) (Z.shiftr x 3).
Definition sigma1 (x : Z) : Z := Z.lxor (Z.lxor (rotr 17 x) (rotr 19 x)) (Z.shiftr x 10).

(** The constants are defined as the standard defines them: the first
    32 bits of the fractional parts of the cube roots (for [K]) and of
    the square roots (for [H0]) of the first primes. *)
Definition is_prime (n : nat) : bool :=
  forallb (fun d => negb (n mod d =? 0)%nat) (seq 2 (n - 2)).

Definition primes_below (n : nat) : list Z :=
  map Z.of_nat (filter (fun p => is_prime p = true) (seq 2 (n - 2))).

(** Integer cube root, one bit at a time from bit [bits - 1] down. *)
Fixpoint cbrt_go (n : Z) (bits : nat) (r : Z) : Z :=
  match bits with
  | O => r
  | S b =>
      let r' := r + 2 ^ Z.of_nat b in
      cbrt_go n b (if r' * r' * r' <=? n then r' else r)
  end.

Definition cbrt (n : Z) : Z := cbrt_go n 36 0.

Definition K : list Z :=
  Eval vm_compute in map (fun p => w32 (cbrt (p * 2 ^ 96))) (primes_below 312).

Definition H0 : list Z :=
  Eval vm_compute in map (fun p => w32 (Z.sqrt (p * 2 ^ 64))) (primes_below 20).

(** Padding: a [0x80] byte, zeros up to 56 modulo 64, then the bit
    length as a 64-bit big-endian number. *)
Fixpoint be_bytes (n : nat) (x : Z) : list Z :=
  match n with
  | O => []
  | S n' => be_bytes n' (x / 256) ++ [x mod 256]
  end.

Definition pad (msg : list Z) : list Z :=
  let len := Z.of_nat (length msg) in
  let zeros := Z.to_nat ((55 - len) mod 64) in
  msg ++ [0x80] ++ repeat 0 zeros ++ be_bytes 8 (8 * len).

Fixpoint words (bs : list Z) : list Z :=
  match bs with
  | a :: b :: c :: d :: rest =>
      (a * 2 ^ 24 + b * 2 ^ 16 + c * 2 ^ 8 + d) :: words rest
  | _ => []
  end.

(** Message schedule: sixteen words extended to sixty-four. *)
Fixpoint schedule (n : nat) (w : list Z) : list Z :=
  match n with
  | O => w
  | S n' =>
      let t := length w in
      let at_ (k : nat) := nth (t - k) w 0 in
      schedule n'
        (w ++ [w32 (sigma1 (at_ 2%nat) + at_ 7%nat + sigma0 (at_ 15%nat) + at_ 16%nat)])
  end.

Record regs := Regs { ra : Z; rb : Z; rc : Z; rd : Z; re : Z; rf : Z; rg : Z; rh : Z }.

Definition round (s : regs) (kw : Z * Z) : regs :=
  let t1 := rh s + Sigma1 (re s) + Ch (re s) (rf s) (rg s) + fst kw + snd kw in
  let t2 := Sigma0 (ra s) + Maj (ra s) (rb s) (rc s) in
  Regs (w32 (t1 + t2)) (ra s) (rb s) (rc s) (w32 (rd s + t1)) (re s) (rf s) (rg s).

Definition regs_of (h : list Z) : regs :=
  Regs (nth 0 h 0) (nth 1 h 0) (nth 2 h 0) (nth 3 h 0)
       (nth 4 h 0) (nth 5 h 0) (nth 6 h 0) (nth 7 h 0).

Definition regs_list (s : regs) : list Z :=
  [ra s; rb s; rc s; rd s; re s; rf s; rg s; rh s].

Definition compress (h : list Z) (block : list Z) : list Z :=
  let w := schedule 48 block in
  let s := fold_left round (combine K w) (regs_of h) in
  map (fun p => w32 (fst p + snd p)) (combine h (regs_list s)).

Fixpoint blocks (fuel : nat) (ws : list Z) (h : list Z) : list Z :=
  match fuel, ws with
  | S fuel', _ :: _ => blocks fuel' (skipn 16 ws) (compress h (firstn 16 ws))
  | _, _ => h
  end.

Definition digest (msg : list Z) : list Z :=
  let ws := words (pad msg) in
  blocks (length ws) ws H0.

Definition hex_digit (d : Z) : ascii :=
  ascii_of_N (Z.to_N (if d <? 10 then 48 + d else 87 + d)).

Fixpoint hex (n : nat) (x : Z) : string :=
  match n with
  | O => EmptyString
  | S n' => hex n' (x / 16) +:+ String (hex_digit (x mod 16)) EmptyString
  end.

Definition bytes_of_string (s : string) : list Z :=
  map (fun c => Z.of_N (N_of_ascii c)) (list_ascii_of_string s).

Definition hexdigest (s : string) : string :=
  fold_right (fun w acc => hex 8 w +:+ acc) EmptyString (digest (bytes_of_string s)).

End SHA256.

Local Open Scope string_scope.

(** ** JSON values and the Python operations the scripts apply to them *)

(** What [json.load] returns: [None], [bool], [int], [str], [list] and
    [dict] (a [dict] as its key/value pairs in order, keys distinct). *)
Inductive json : Type :=
| JNull
| JBool (b : bool)
| JInt (n : Z)
| JStr (s : string)
| JArr (items : list json)
| JObj (fields : list (string * json)).

Fixpoint assoc (k : string) (fields : list (string * json)) : option json :=
  match fields with
  | [] => None
  | (k', v) :: rest => if decide (k = k') then Some v else assoc k rest
  end.

(** [d.get(k, default)]: only a [dict] has the method. *)
Definition py_get (d : json) (k : string) (default : json) : option json :=
  match d with
  | JObj fields => Some (from_option id default (assoc k fields))
  | _ => None
  end.

(** [d[k]] with a string key: [KeyError] on a missing key, [TypeError]
    on anything that is not a [dict]. *)
Definition py_index (d : json) (k : string) : option json :=
  match d with
  | JObj fields => assoc k fields
  | _ => None
  end.

Fixpoint chars (s : string) : list json :=
  match s with
  | EmptyString => []
  | String c rest => JStr (String c EmptyString) :: chars rest
  end.

(** Iteration by [for] or a comprehension: a list gives its items, a
    dict its keys, a string its characters; nothing else is iterable. *)
Definition py_iter (v : json) : option (list json) :=
  match v with
  | JArr items => Some items
  | JObj fields => Some (map (fun kv => JStr (fst kv)) fields)
  | JStr s => Some (chars s)
  | _ => None
  end.

(** [bool(v)] *)
Definition py_bool (v : json) : bool :=
  match v with
  | JNull => false
  | JBool b => b
  | JInt n => negb (n =? 0)%Z
  | JStr s => negb (bool_decide (s = ""))
  | JArr items => negb (bool_decide (items = []))
  | JObj fields => negb (bool_decide (fields = []))
  end.

(** [sep.join(items)]: every item must be a [str]. *)
Fixpoint py_join (sep : string) (items : list json) : option string :=
  match items with
  | [] => Some ""
  | [JStr s] => Some s
  | JStr s :: rest => rest' ← py_join sep rest; Some (s +:+ sep +:+ rest')
  | _ => None
  end.

(** [str.lower] and [str.strip] *)
Definition lower_char (c : ascii) : ascii :=
  let n := nat_of_ascii c in
  if (65 <=? n)%nat && (n <=? 90)%nat then ascii_of_nat (n + 32) else c.

Fixpoint lower (s : string) : string :=
  match s with
  | EmptyString => EmptyString
  | String c rest => String (lower_char c) (lower rest)
  end.

Definition is_space (c : ascii) : bool :=
  let n := nat_of_ascii c in
  ((9 <=? n)%nat && (n <=? 13)%nat) || ((28 <=? n)%nat && (n <=? 32)%nat).

Fixpoint lstrip (s : string) : string :=
  match s with
  | EmptyString => EmptyString
  | String c rest => if is_space c then lstrip rest else s
  end.

Fixpoint rstrip (s : string) : string :=
  match s with
  | EmptyString => EmptyString
  | String c rest =>
      match rstrip rest with
      | EmptyString => if is_space c then EmptyString else String c EmptyString
      | rest' => String c rest'
      end
  end.

Definition strip (s : string) : string := rstrip (lstrip s).

(** The normalization of step 4: [.str.lower().str.strip()]. *)
Definition normalize (s : string) : string := strip (lower s).

(** ** External collaborators *)

Class Collaborators := {
  (** embedding vectors of the sentence-transformer model *)
  vector : Type;
  (** [SentenceTransformer('all-MiniLM-L6-v2')] returns a model *)
  load_model : bool;
  (** [model.encode(text)]; [None] when the call raises *)
  encode : string -> option vector;
  (** distance used by the collection to rank vectors *)
  distance : vector -> vector -> Q;
  (** Python's [str] of a [list] or [dict] *)
  py_repr : json -> string;
  (** [json.dumps] *)
  json_dumps : json -> string;
  (** whether [collection.add] takes this list or dict as a metadata
      value *)
  takes_container : json -> bool
}.

Section Program.
Context {collab : Collaborators}.

(** [str(v)], as an f-string placeholder formats it. *)
Definition py_str (v : json) : string :=
  match v with
  | JNull => "None"
  | JBool true => "True"
  | JBool false => "False"
  | JInt n => pretty n
  | JStr s => s
  | _ => py_repr v
  end.

(** ** Pipeline.py, step 2: one flat record per entry *)

Record record := Record_ {
  application_number : json;
  filing_date : json;
  entity_type : json;
  first_inventor_flag : json;
  inventors : string;
  correspondence_text : string;
  summary_text : string;
  source_fingerprint : string;
  quality_score : Z
}.

Definition inventor_name (i : json) : option json :=
  py_get i "inventorNameText" (JStr "").

Definition make_summary_text (inventors : string) (entity_type filing_date : json) : string :=
  inventors +:+ " | " +:+ py_str entity_type +:+ " | " +:+ py_str filing_date.

Definition fingerprint_input (application_number : json) (summary_text : string) : string :=
  py_str application_number +:+ "-" +:+ summary_text.

(** The body of the loop over [data["patentdata"]]; [None] when it raises. *)
Definition make_record (entry : json) : option record :=
  meta ← py_get entry "applicationMetaData" (JObj []);
  corr ← py_get entry "correspondenceAddressBag" (JObj []);
  inventors ← py_get meta "inventorBag" (JArr []) ≫= py_iter;
  inventor_names ← mapM inventor_name inventors;
  application_number ← py_get entry "applicationNumberText" JNull;
  filing_date ← py_get meta "filingDate" JNull;
  entity_status ← py_get meta "entityStatusData" (JObj []);
  entity_type ← py_get entity_status "businessEntityStatusCategory" JNull;
  first_inventor_flag ← py_get meta "firstInventorToFileIndicator" JNull;
  inventors ← py_join ", " inventor_names;
  let summary_text := make_summary_text inventors entity_type filing_date in
  Some {|
    application_number := application_number;
    filing_date := filing_date;
    entity_type := entity_type;
    first_inventor_flag := first_inventor_flag;
    inventors := inventors;
    correspondence_text := json_dumps corr;
    summary_text := summary_text;
    source_fingerprint :=
      SHA256.hexdigest (fingerprint_input application_number summary_text);
    quality_score :=
      Z.of_nat (length inventor_names) + (if py_bool filing_date then 1 else 0)
  |}.

(** Steps 1 and 2 on the parsed file. *)
Definition extract_records (data : json) : option (list record) :=
  entries ← py_index data "patentdata" ≫= py_iter;
  mapM make_record entries.

(** ** The two stores *)

(** The five columns kept as Chroma metadata. *)
Record metadata := Metadata {
  md_application_number : json;
  md_filing_date : json;
  md_entity_type : json;
  md_source_fingerprint : string;
  md_quality_score : Z
}.

(** One item of a Chroma collection. *)
Record item := Item {
  item_id : string;
  item_document : string;
  item_embedding : vector;
  item_metadata : metadata
}.

(** [duckdb]: the tables of [patent_data.duckdb], rows in insertion
    order (the position of a row is its [rowid]).  [chroma]: the
    collections under [./chroma_store], items in insertion order. *)
Record store := Store {
  duckdb : gmap string (list record);
  chroma : gmap string (list item)
}.

Definition RAW_TABLE : string := "raw_patents".
Definition CLEANED_TABLE : string := "cleaned_patents".
Definition VECTOR_COLLECTION : string := "patent_embeddings".

(** ** Script runs: state and exceptions *)

(** Where a run of the pipeline can stop. *)
Inductive exn : Type :=
| ExtractError      (* steps 1-2: KeyError, TypeError, AttributeError *)
| CreateTableError  (* step 3: DuckDB refuses a frame without columns *)
| ModelLoadError    (* step 5: SentenceTransformer(...) raises *)
| EncodeError       (* step 5: model.encode raises *)
| AddError.         (* step 5: collection.add refuses a metadata value *)

Inductive result (A : Type) : Type :=
| Ok (a : A)
| Raise (e : exn).
#[global] Arguments Ok {A} a.
#[global] Arguments Raise {A} e.

Definition script (A : Type) : Type := store -> store * result A.

#[export] Instance script_ret : MRet script :=
  fun A (a : A) st => (st, Ok a).

#[export] Instance script_bind : MBind script :=
  fun A B (k : A -> script B) (m : script A) st =>
    match m st with
    | (st', Ok a) => k a st'
    | (st', Raise e) => (st', Raise e)
    end.

Definition raise {A} (e : exn) : script A := fun st => (st, Raise e).

Definition try_option {A} (e : exn) (o : option A) : script A :=
  match o with
  | Some a => mret a
  | None => raise e
  end.

Definition guard (e : exn) (b : bool) : script unit :=
  if b then mret tt else raise e.

(** *** DuckDB statements *)

(** [DROP TABLE IF EXISTS name] *)
Definition drop_table (name : string) : script unit :=
  fun st => (Store (delete name (duckdb st)) (chroma st), Ok tt).

(** [CREATE TABLE name AS SELECT * FROM df].  [pd.DataFrame([])] has no
    columns and DuckDB does not scan such a frame. *)
Definition create_table_as (name : string) (df : list record) : script unit :=
  fun st =>
    match df with
    | [] => (st, Raise CreateTableError)
    | _ => (Store (<[name := df]> (duckdb st)) (chroma st), Ok tt)
    end.

(** *** Chroma client calls *)

(** [if name in [c.name for c in list_collections()]: delete_collection(name)] *)
Definition delete_collection_if_listed (name : string) : script unit :=
  fun st => (Store (duckdb st) (delete name (chroma st)), Ok tt).

(** [create_collection(name=...)] of a name that is not in use *)
Definition create_collection (name : string) : script unit :=
  fun st => (Store (duckdb st) (<[name := []]> (chroma st)), Ok tt).

(** [collection.add(documents, embeddings, metadatas, ids)], the four
    lists zipped position by position. *)
Fixpoint zip_items (ids texts : list string) (embeddings : list vector)
    (metadatas : list metadata) : list item :=
  match ids, texts, embeddings, metadatas with
  | i :: ids', t :: texts', e :: embeddings', m :: metadatas' =>
      Item i t e m :: zip_items ids' texts' embeddings' metadatas'
  | _, _, _, _ => []
  end.

(** A metadata value that Chroma takes: a [str], an [int] or a [bool].
    On [None] the call raises. *)
Definition storable (v : json) : bool :=
  match v with
  | JNull => false
  | JBool _ | JInt _ | JStr _ => true
  | JArr _ | JObj _ => takes_container v
  end.

(** The fingerprint is a [str] and the quality score an [int]; the
    other three values are what the entry had. *)
Definition metadata_ok (m : metadata) : bool :=
  storable (md_application_number m) && storable (md_filing_date m) &&
  storable (md_entity_type m).

(** The call validates every metadata value before it writes anything. *)
Definition collection_add (name : string) (items : list item) : script unit :=
  fun st =>
    if forallb (fun x => metadata_ok (item_metadata x)) items then
      (Store (duckdb st)
         (<[name := (from_option id [] (chroma st !! name) ++ items)%list]>
            (chroma st)),
       Ok tt)
    else (st, Raise AddError).

(** *** Steps 3 to 5 *)

(** Step 4: lower-case and strip the two text columns. *)
Definition clean (r : record) : record :=
  {| application_number := application_number r;
     filing_date := filing_date r;
     entity_type := entity_type r;
     first_inventor_flag := first_inventor_flag r;
     inventors := normalize (inventors r);
     correspondence_text := correspondence_text r;
     summary_text := normalize (summary_text r);
     source_fingerprint := source_fingerprint r;
     quality_score := quality_score r |}.

Definition metadata_of (r : record) : metadata :=
  {| md_application_number := application_number r;
     md_filing_date := filing_date r;
     md_entity_type := entity_type r;
     md_source_fingerprint := source_fingerprint r;
     md_quality_score := quality_score r |}.

(** [[str(i) for i in range(n)]] *)
Definition ids_upto (n : nat) : list string :=
  map (fun i : nat => pretty i) (seq 0 n).

(** The whole script, from the parsed JSON file on. *)
Definition run_pipeline (data : json) : script unit :=
  records ← try_option ExtractError (extract_records data);
  let df := records in
  drop_table RAW_TABLE;;
  drop_table CLEANED_TABLE;;
  create_table_as RAW_TABLE df;;
  let df_clean := map clean df in
  create_table_as CLEANED_TABLE df_clean;;
  guard ModelLoadError load_model;;
  delete_collection_if_listed VECTOR_COLLECTION;;
  create_collection VECTOR_COLLECTION;;
  let texts := map summary_text df_clean in
  let metadatas := map metadata_of df_clean in
  embeddings ← try_option EncodeError (mapM encode texts);
  collection_add VECTOR_COLLECTION
    (zip_items (ids_upto (length texts)) texts embeddings metadatas).

(** ** app.py: the search service *)

(** Modelled from the spec: the VectorIndex operation [query(vector, k)]
    (Chroma's [collection.query], which the repository only calls).  It
    returns the [k] nearest items by increasing distance, a tie going to
    the item added first, that is to the lower id; a collection with
    fewer than [k] items returns them all. *)
Fixpoint insert_ranked (q : vector) (x : item) (ranked : list item) : list item :=
  match ranked with
  | [] => [x]
  | y :: rest =>
      if Qle_bool (distance q (item_embedding x)) (distance q (item_embedding y))
      then x :: ranked
      else y :: insert_ranked q x rest
  end.

Definition rank (q : vector) (items : list item) : list item :=
  fold_right (insert_ranked q) [] items.

Definition collection_query (items : list item) (q : vector) (n_results : nat) : list item :=
  firstn n_results (rank q items).

(** The collection the service holds: [get_or_create_collection]. *)
Definition patent_collection (st : store) : list item :=
  from_option id [] (chroma st !! VECTOR_COLLECTION).

(** One element of ["results"]. *)
Record hit := Hit {
  summary : string;
  hit_application_number : json;
  hit_filing_date : json;
  hit_entity_type : json;
  hit_quality_score : Z;
  hit_source_fingerprint : string
}.

Definition hit_of (x : item) : hit :=
  let meta := item_metadata x in
  {| summary := item_document x;
     hit_application_number := md_application_number meta;
     hit_filing_date := md_filing_date meta;
     hit_entity_type := md_entity_type meta;
     hit_quality_score := md_quality_score meta;
     hit_source_fingerprint := md_source_fingerprint meta |}.

Inductive response : Type :=
| Results (hits : list hit)     (* 200 {"results": [...]} *)
| ValidationError               (* 422, raised by the request model *)
| ServerError.                  (* 500, the handler raised *)

(** The handler, given the validated [request.query]. *)
Definition search_patents (st : store) (query : string) : response :=
  match encode query with
  | None => ServerError
  | Some query_embedding =>
      let results := collection_query (patent_collection st) query_embedding 3 in
      Results (map hit_of results)
  end.

(** [QueryInput]: the body must be an object whose [query] is a string. *)
Definition QueryInput (body : json) : option string :=
  match body with
  | JObj fields =>
      match assoc "query" fields with
      | Some (JStr q) => Some q
      | _ => None
      end
  | _ => None
  end.

(** [POST /search] *)
Definition post_search (st : store) (body : json) : response :=
  match QueryInput body with
  | None => ValidationError
  | Some query => search_patents st query
  end.

End Program.


(** ** Vocabulary of the statements *)

Section Vocabulary.
Context {collab : Collaborators}.

(** The tables and the items that a run over the frame [df] writes. *)
Definition new_tables (df : list record) (db : gmap string (list record)) :
    gmap string (list record) :=
  <[CLEANED_TABLE := map clean df]>
    (<[RAW_TABLE := df]> (delete CLEANED_TABLE (delete RAW_TABLE db))).

Definition new_items (df : list record) (embeddings : list vector) : list item :=
  let df_clean := map clean df in
  let texts := map summary_text df_clean in
  zip_items (ids_upto (length texts)) texts embeddings (map metadata_of df_clean).

(** A row whose three metadata values [collection.add] takes. *)
Definition record_storable (r : record) : bool := metadata_ok (metadata_of r).

(** Ids of the structured table: the row positions (DuckDB's [rowid]),
    printed the way the vector index prints its ids. *)
Definition table_ids (rows : list record) : gset string :=
  list_to_set (map (fun i : nat => pretty i) (seq 0 (length rows))).

Definition index_ids (items : list item) : gset string :=
  list_to_set (map item_id items).

Definition fingerprints (items : list item) : list string :=
  map (fun x => md_source_fingerprint (item_metadata x)) items.

(** Number of documents of the collection up to equal fingerprint. *)
Definition unique_documents (items : list item) : nat :=
  length (remove_dups (fingerprints items)).

(** The entries of the record's inventor bag. *)
Definition inventor_entries (entry : json) : option (list json) :=
  meta ← py_get entry "applicationMetaData" (JObj []);
  py_get meta "inventorBag" (JArr []) ≫= py_iter.

(** The quality score as the specification words it: the inventor
    entries that are populated, that is carry a non-empty name, plus one
    when the filing-date field is present. *)
Definition populated (i : json) : bool :=
  match i with
  | JObj ifields =>
      match assoc "inventorNameText" ifields with
      | Some (JStr s) => negb (bool_decide (s = ""))
      | _ => false
      end
  | _ => false
  end.

Definition specified_quality_score (mfields : list (string * json))
    (entries : list json) : Z :=
  Z.of_nat (length (List.filter populated entries)) +
  match assoc "filingDate" mfields with Some _ => 1 | None => 0 end.

(** First hit of a response, if it has one. *)
Definition top_result (r : response) : option hit :=
  match r with
  | Results (h :: _) => Some h
  | _ => None
  end.

(** Text of ASCII characters only, on which [str.lower] and
    [str.strip] are [lower] and [strip]. *)
Definition ascii_char (c : ascii) : bool := (nat_of_ascii c <? 128)%nat.

Definition is_ascii (s : string) : Prop :=
  Forall (fun c => ascii_char c = true) (list_ascii_of_string s).

(** A row whose application number, filing date and entity type are
    strings, as they are in the patent file. *)
Definition text_fields (r : record) : Prop :=
  exists a f e,
    application_number r = JStr a /\ filing_date r = JStr f /\
    entity_type r = JStr e.

(** A row whose application number, filing date and entity type are
    each a string or missing. *)
Definition text_or_null (v : json) : Prop := v = JNull \/ exists s, v = JStr s.

Definition plain_fields (r : record) : Prop :=
  text_or_null (application_number r) /\ text_or_null (filing_date r) /\
  text_or_null (entity_type r).

(** ASCII capital letters, the characters that [str.lower] changes. *)
Definition is_upper (c : ascii) : bool :=
  let n := nat_of_ascii c in (65 <=? n)%nat && (n <=? 90)%nat.

(** The sixteen characters of a lower-case hexadecimal digest. *)
Definition is_hex_char (c : ascii) : bool :=
  let n := nat_of_ascii c in
  ((48 <=? n)%nat && (n <=? 57)%nat) || ((97 <=? n)%nat && (n <=? 102)%nat).

(** The hit that the service returns for a document made of row [r]. *)
Definition hit_of_row (r : record) : hit :=
  {| summary := normalize (summary_text r);
     hit_application_number := application_number r;
     hit_filing_date := filing_date r;
     hit_entity_type := entity_type r;
     hit_quality_score := quality_score r;
     hit_source_fingerprint := source_fingerprint r |}.



(** Two distinct texts with one digest. *)
Definition sha256_collision (x y : string) : Prop :=
  x ≠ y ∧ SHA256.hexdigest x = SHA256.hexdigest y.

End Vocabulary.

(** ** Sample collaborators and data *)

Definition first_code (s : string) : Z :=
  match s with
  | EmptyString => 0
  | String c _ => Z.of_nat (nat_of_ascii c)
  end.

Definition sq_dist (a b : Z) : Q := inject_Z ((a - b) * (a - b)).

(** A one-dimensional embedder that reads the first character only: it
    tells upper case from lower case and sees leading blanks. *)
Definition first_char_model : Collaborators :=
  {| vector := Z;
     load_model := true;
     encode := fun s => Some (first_code s);
     distance := sq_dist;
     py_repr := fun _ => "[...]";
     json_dumps := fun _ => "{}";
     takes_container := fun _ => false |}.

(** The same embedder with an input limit: [encode] raises on a text of
    more than thirty-six characters. *)
Definition limited_model : Collaborators :=
  {| vector := Z;
     load_model := true;
     encode := fun s =>
       if (String.length s <=? 36)%nat then Some (first_code s) else None;
     distance := sq_dist;
     py_repr := fun _ => "[...]";
     json_dumps := fun _ => "{}";
     takes_container := fun _ => false |}.

Definition patent (number : string) (inventor_names : list string)
    (entity date : string) : json :=
  JObj [ ("applicationNumberText", JStr number);
         ("applicationMetaData",
          JObj [ ("filingDate", JStr date);
                 ("entityStatusData",
                  JObj [("businessEntityStatusCategory", JStr entity)]);
                 ("inventorBag",
                  JArr (map (fun n => JObj [("inventorNameText", JStr n)])
                          inventor_names)) ]) ].

(** Record A of the end-to-end example. *)
Definition record_A : json :=
  patent "A1" ["Alice Smith"] "UNDISCOUNTED" "2024-01-01".

Definition record_3M : json :=
  patent "B2" ["3M Company"] "REGULAR" "2023-05-05".

Definition file_of (entries : list json) : json :=
  JObj [("patentdata", JArr entries)].

Definition empty_store {collab : Collaborators} : store := Store ∅ ∅.

(** What the loop makes of record A. *)
Definition row_A : record :=
  {| application_number := JStr "A1";
     filing_date := JStr "2024-01-01";
     entity_type := JStr "UNDISCOUNTED";
     first_inventor_flag := JNull;
     inventors := "Alice Smith";
     correspondence_text := "{}";
     summary_text := "Alice Smith | UNDISCOUNTED | 2024-01-01";
     source_fingerprint :=
       "17c3a9d8525079afdb12e5686d29626876d594b6a36e34af4efb5618437bcb50";
     quality_score := 2 |}.

(** Record A typed in lower case, and its row. *)
Definition record_a : json :=
  patent "A1" ["alice smith"] "UNDISCOUNTED" "2024-01-01".

Definition row_a : record :=
  {| application_number := JStr "A1";
     filing_date := JStr "2024-01-01";
     entity_type := JStr "UNDISCOUNTED";
     first_inventor_flag := JNull;
     inventors := "alice smith";
     correspondence_text := "{}";
     summary_text := "alice smith | UNDISCOUNTED | 2024-01-01";
     source_fingerprint :=
       "714e0f0306cf51866816814ae517d644b2940d5e09a2dd5875943528876acf75";
     quality_score := 2 |}.

(** Record A with a blank before its entity type. *)
Definition record_A_blank : json :=
  patent "A1" ["Alice Smith"] " UNDISCOUNTED" "2024-01-01".

(** A record with nothing but the first-inventor flag. *)
Definition flagged (flag : string) : json :=
  JObj [ ("applicationMetaData",
          JObj [("firstInventorToFileIndicator", JStr flag)]) ].

(** A record with three inventor entries without a name and an empty
    filing date. *)
Definition unnamed_fields : list (string * json) :=
  [ ("filingDate", JStr ""); ("inventorBag", JArr [JObj []; JObj []; JObj []]) ].

Definition record_unnamed : json :=
  JObj [("applicationMetaData", JObj unnamed_fields)].

(** A record with nothing but its number. *)
Definition record_bare : json := JObj [("applicationNumberText", JStr "A0")].

(** A store that holds a table and a collection of other names. *)
Definition stocked_store {collab : Collaborators} : store :=
  Store {[ "archive" := [row_A] ]} {[ "drafts" := [] ]}.

(** The store after a run of the pipeline on [entries], from nothing. *)
Definition built {collab : Collaborators} (entries : list json) : store :=
  (run_pipeline (file_of entries) empty_store).1.

(** The item that a build makes of record A under [first_char_model]. *)
Definition item_A : @item first_char_model :=
  @Item first_char_model "0" "alice smith | undiscounted | 2024-01-01" 97
    (metadata_of row_A).

(** * Properties *)

(** ** SHA-256 on the standard test vectors *)

Example sha256_empty :
  SHA256.hexdigest "" =
  "e3b0c44298fc1c149afbf4c8996fb92427ae41e4649b934ca495991b7852b855".
Proof. vm_compute. reflexivity. Qed.

Example sha256_abc :
  SHA256.hexdigest "abc" =
  "ba7816bf8f01cfea414140de5dae2223b00361a396177a9cb410ff61f20015ad".
Proof. vm_compute. reflexivity. Qed.

Example sha256_two_blocks :
  SHA256.hexdigest
    "aaaaaaaaaaaaaaaaaaaaaaaaaaaaaaaaaaaaaaaaaaaaaaaaaaaaaaaaaaaaaaaaaaaaaa" =
  "6bd5e5034855a11241f0dee8fc72850ffd9955b28347a86428b5fa19119f6ad0".
Proof. vm_compute. reflexivity. Qed.

Section Properties.
Context {collab : Collaborators}.

(** ** What a run of the pipeline leaves behind *)

Lemma create_table_as_nonempty (name : string) (df : list record) (st : store) :
  df ≠ [] ->
  create_table_as name df st =
  (Store (<[name := df]> (duckdb st)) (chroma st), Ok tt).
Proof. destruct df; [congruence | reflexivity]. Qed.

Lemma zip_items_metadata_ok ids texts (embeddings : list vector) metadatas :
  length ids = length metadatas -> length texts = length metadatas ->
  length embeddings = length metadatas ->
  forallb (fun x => metadata_ok (item_metadata x))
    (zip_items ids texts embeddings metadatas) = forallb metadata_ok metadatas.
Proof.
  revert ids texts embeddings.
  induction metadatas as [|m metadatas IH];
    intros [|i ids] [|t texts] [|e embeddings]; simpl; try discriminate; try done.
  intros [= ?] [= ?] [= ?]. by rewrite IH.
Qed.

Lemma new_items_metadata_ok (df : list record) (embeddings : list vector) :
  length embeddings = length df ->
  forallb (fun x => metadata_ok (item_metadata x)) (new_items df embeddings)
  = forallb record_storable df.
Proof.
  intros Hlen. unfold new_items.
  rewrite zip_items_metadata_ok.
  - induction df as [|r df IH] in |- *; simpl; [done|]. by rewrite IH.
  - unfold ids_upto. by rewrite !length_map, length_seq.
  - by rewrite !length_map.
  - by rewrite !length_map.
Qed.

(** The script unfolded along its six exits. *)
Lemma run_pipeline_cases (data : json) (st : store) :
  run_pipeline data st =
  match extract_records data with
  | None => (st, Raise ExtractError)
  | Some [] =>
      (Store (delete CLEANED_TABLE (delete RAW_TABLE (duckdb st))) (chroma st),
       Raise CreateTableError)
  | Some df =>
      if load_model then
        match mapM encode (map summary_text (map clean df)) with
        | None =>
            (Store (new_tables df (duckdb st))
               (<[VECTOR_COLLECTION := []]> (delete VECTOR_COLLECTION (chroma st))),
             Raise EncodeError)
        | Some embeddings =>
            if forallb record_storable df then
              (Store (new_tables df (duckdb st))
                 (<[VECTOR_COLLECTION := new_items df embeddings]> (chroma st)),
               Ok tt)
            else
              (Store (new_tables df (duckdb st))
                 (<[VECTOR_COLLECTION := []]>
                    (delete VECTOR_COLLECTION (chroma st))),
               Raise AddError)
        end
      else (Store (new_tables df (duckdb st)) (chroma st), Raise ModelLoadError)
  end.
Proof.
  unfold run_pipeline, mbind, script_bind.
  destruct (extract_records data) as [[|r df]|]; try reflexivity.
  cbn -[mapM map ids_upto length lookup insert delete forallb].
  destruct load_model; cbn -[mapM map ids_upto length lookup insert delete forallb];
    [|reflexivity].
  destruct (mapM encode _) as [embeddings|] eqn:Hemb;
    cbn -[mapM map ids_upto length lookup insert delete forallb]; [|reflexivity].
  rewrite create_table_as_nonempty by discriminate.
  apply length_mapM in Hemb. rewrite !length_map in Hemb. symmetry in Hemb.
  unfold collection_add.
  change (zip_items _ _ embeddings _) with (new_items (r :: df) embeddings).
  rewrite new_items_metadata_ok by done.
  destruct (forallb record_storable (r :: df));
    cbn -[mapM map ids_upto length lookup insert delete new_items forallb]; [|reflexivity].
  rewrite lookup_insert_eq;
    cbn -[mapM map ids_upto length lookup insert delete new_items forallb].
  rewrite insert_insert_eq, insert_delete_eq.
  reflexivity.
Qed.

Lemma new_tables_idem (df : list record) (db : gmap string (list record)) :
  new_tables df (new_tables df db) = new_tables df db.
Proof.
  unfold new_tables. apply map_eq; intros k.
  destruct (decide (k = CLEANED_TABLE)), (decide (k = RAW_TABLE));
    simplify_map_eq; done.
Qed.

Lemma dropped_tables_idem (db : gmap string (list record)) :
  delete CLEANED_TABLE (delete RAW_TABLE (delete CLEANED_TABLE (delete RAW_TABLE db)))
  = delete CLEANED_TABLE (delete RAW_TABLE db).
Proof.
  apply map_eq; intros k.
  destruct (decide (k = CLEANED_TABLE)), (decide (k = RAW_TABLE));
    simplify_map_eq; done.
Qed.

Lemma new_tables_raw df db : new_tables df db !! RAW_TABLE = Some df.
Proof. unfold new_tables. by simplify_map_eq. Qed.

Lemma new_tables_cleaned df db :
  new_tables df db !! CLEANED_TABLE = Some (map clean df).
Proof. unfold new_tables. by simplify_map_eq. Qed.

(** A successful run, read backwards. *)
Lemma run_pipeline_ok_inv (data : json) (st st' : store) :
  run_pipeline data st = (st', Ok tt) ->
  exists df embeddings,
    extract_records data = Some df /\
    mapM encode (map summary_text (map clean df)) = Some embeddings /\
    st' = Store (new_tables df (duckdb st))
            (<[VECTOR_COLLECTION := new_items df embeddings]> (chroma st)).
Proof.
  rewrite run_pipeline_cases.
  destruct (extract_records data) as [[|r df]|]; try discriminate.
  destruct load_model; try discriminate.
  destruct (mapM encode _) as [embeddings|] eqn:E; try discriminate.
  destruct (forallb record_storable _); try discriminate.
  intros [= <-]. eauto.
Qed.

(** A run that succeeds has handed only storable metadata to Chroma. *)
Lemma run_pipeline_ok_storable (data : json) (st st' : store) (df : list record) :
  run_pipeline data st = (st', Ok tt) ->
  extract_records data = Some df ->
  forallb record_storable df = true.
Proof.
  rewrite run_pipeline_cases. intros Hrun Hdf. rewrite Hdf in Hrun.
  destruct df as [|r df]; try discriminate.
  destruct load_model; try discriminate.
  destruct (mapM encode _); try discriminate.
  by destruct (forallb record_storable _).
Qed.

(** ** The zipped items *)

Lemma zip_items_lookup ids texts (embeddings : list vector) metadatas i :
  zip_items ids texts embeddings metadatas !! i =
  (a ← ids !! i; t ← texts !! i; e ← embeddings !! i; m ← metadatas !! i;
   Some (Item a t e m)).
Proof.
  revert texts embeddings metadatas i.
  induction ids as [|a ids IH]; intros [|t texts] [|e embeddings] [|m metadatas] i;
    try (destruct i; simpl; try done;
         repeat (match goal with |- context [?l !! ?j] => destruct (l !! j) end; simpl);
         done).
Qed.

Lemma zip_items_ids ids texts (embeddings : list vector) metadatas :
  length texts = length ids -> length embeddings = length ids ->
  length metadatas = length ids ->
  map item_id (zip_items ids texts embeddings metadatas) = ids.
Proof.
  revert texts embeddings metadatas.
  induction ids as [|a ids IH]; intros [|t texts] [|e embeddings] [|m metadatas];
    simpl; try discriminate; try done.
  intros [= ?] [= ?] [= ?]. f_equal. by apply IH.
Qed.

Lemma length_ids_upto n : length (ids_upto n) = n.
Proof. unfold ids_upto. by rewrite length_map, length_seq. Qed.

Lemma new_items_ids df embeddings :
  length embeddings = length df ->
  map item_id (new_items df embeddings) = ids_upto (length df).
Proof.
  intros Hlen. unfold new_items. rewrite !length_map.
  apply zip_items_ids; rewrite ?length_map, length_ids_upto; done.
Qed.

Lemma new_items_length df embeddings :
  length embeddings = length df -> length (new_items df embeddings) = length df.
Proof.
  intros Hlen. rewrite <- (length_map item_id), new_items_ids by done.
  apply length_ids_upto.
Qed.

Lemma new_items_lookup df embeddings i r :
  length embeddings = length df ->
  df !! i = Some r ->
  exists e, embeddings !! i = Some e /\
    new_items df embeddings !! i =
    Some (Item (pretty i) (normalize (summary_text r)) e (metadata_of (clean r))).
Proof.
  intros Hlen Hr.
  assert (i < length df)%nat as Hi by (by eapply lookup_lt_Some).
  destruct (lookup_lt_is_Some_2 embeddings i) as [e He]; [lia|].
  exists e; split; [done|].
  unfold new_items. rewrite zip_items_lookup, !length_map.
  unfold ids_upto. rewrite !list_lookup_fmap, lookup_seq_lt by done.
  rewrite Hr, He. reflexivity.
Qed.

(** ** Strings *)

Lemma append_cons (c : ascii) (s t : string) :
  String c s +:+ t = String c (s +:+ t).
Proof. reflexivity. Qed.

Lemma append_empty_r (s : string) : s +:+ "" = s.
Proof. induction s as [|c s IH]; [done|]. by rewrite append_cons, IH. Qed.

Lemma length_lower (s : string) : String.length (lower s) = String.length s.
Proof. induction s as [|c s IH]; simpl; [done|by rewrite IH]. Qed.

Lemma lower_app (s t : string) : lower (s +:+ t) = lower s +:+ lower t.
Proof. induction s as [|c s IH]; simpl; [done|by rewrite IH]. Qed.

Lemma length_app (s t : string) :
  String.length (s +:+ t) = (String.length s + String.length t)%nat.
Proof. induction s as [|c s IH]; simpl; [done|by rewrite IH]. Qed.

Lemma length_rstrip (s : string) : (String.length (rstrip s) <= String.length s)%nat.
Proof.
  induction s as [|c s IH]; simpl; [lia|].
  destruct (rstrip s); [destruct (is_space c)|]; simpl in *; lia.
Qed.

Lemma rstrip_app (s t : string) :
  rstrip t ≠ "" -> rstrip (s +:+ t) = s +:+ rstrip t.
Proof.
  intros Ht. induction s as [|c s IH]; [done|].
  change (rstrip (String c (s +:+ t)) = String c (s +:+ rstrip t)).
  simpl. rewrite IH. destruct (s +:+ rstrip t) eqn:E; [|done].
  destruct s; simpl in E; [done|discriminate].
Qed.

Lemma rstrip_nonspace (c : ascii) (s : string) :
  is_space c = false -> rstrip (String c s) ≠ "".
Proof. intros Hc; simpl. destruct (rstrip s); [rewrite Hc|]; discriminate. Qed.

Lemma lstrip_app_nonspace (s : string) (c : ascii) (t : string) :
  is_space c = false -> lstrip (s +:+ String c t) = lstrip s +:+ String c t.
Proof.
  intros Hc. induction s as [|a s IH]; simpl; [by rewrite Hc|].
  destruct (is_space a); done.
Qed.

(** Text appended after a dash is not stripped away. *)
Lemma normalize_app_dash (s t : string) :
  normalize (s +:+ String "-" t) ≠ normalize s.
Proof.
  unfold normalize, strip. rewrite lower_app.
  change (lower (String "-" t)) with (String "-"%char (lower t)).
  rewrite lstrip_app_nonspace by done.
  rewrite rstrip_app by (by apply rstrip_nonspace).
  intros Heq. apply (f_equal String.length) in Heq.
  rewrite length_app in Heq.
  pose proof (length_rstrip (lstrip (lower s))).
  pose proof (rstrip_nonspace "-" (lower t) eq_refl).
  destruct (rstrip (String "-" (lower t))); [done|simpl in Heq; lia].
Qed.

Lemma app_eq_split (a b x y : string) :
  a +:+ x = b +:+ y ->
  exists d, (b = a +:+ d /\ x = d +:+ y) \/ (a = b +:+ d /\ y = d +:+ x).
Proof.
  revert b. induction a as [|c a IH]; intros b Heq; simpl in *.
  - exists b. by left.
  - destruct b as [|c' b]; simpl in *.
    + exists (String c a). by right.
    + injection Heq as <- Heq. destruct (IH _ Heq) as (d & [[-> ->]|[-> ->]]);
        exists d; [left|right]; done.
Qed.

(** The fingerprint input determines its two parts when the application
    numbers agree up to case and outer blanks. *)
Lemma fingerprint_input_parts (a b x y : string) :
  normalize a = normalize b ->
  a +:+ "-" +:+ x = b +:+ "-" +:+ y -> a = b /\ x = y.
Proof.
  intros Hab Heq.
  change (a +:+ String "-" x = b +:+ String "-" y) in Heq.
  destruct (app_eq_split _ _ _ _ Heq) as (d & [[-> Hd]|[-> Hd]]);
    destruct d as [|c d]; simpl in Hd.
  - injection Hd as ->. by rewrite append_empty_r.
  - injection Hd as <- Hd. by destruct (normalize_app_dash a d).
  - injection Hd as ->. by rewrite append_empty_r.
  - injection Hd as <- Hd. by destruct (normalize_app_dash b d).
Qed.

(** ** Records *)

(** A record is made of its own fields: the summary text joins the
    inventors, the entity type and the filing date, and the fingerprint
    digests the application number and that summary text. *)
Lemma make_record_shape (entry : json) (r : record) :
  make_record entry = Some r ->
  summary_text r = make_summary_text (inventors r) (entity_type r) (filing_date r) /\
  source_fingerprint r =
    SHA256.hexdigest (fingerprint_input (application_number r) (summary_text r)).
Proof.
  unfold make_record. intros Hr. simplify_option_eq. done.
Qed.

(** C7 (as the code has it): the quality score of a record is the
    number of entries of its inventor bag, named or not, plus one when
    its filing date is a value that Python counts as true: a missing,
    null or empty filing date adds nothing, a non-empty one adds one.
    Record A of the end-to-end example, with one inventor and a filing
    date, scores 2. *)
Theorem quality_score_counts (entry : json) (r : record) :
  make_record entry = Some r ->
  (exists mfields entries,
     py_get entry "applicationMetaData" (JObj []) = Some (JObj mfields) /\
     inventor_entries entry = Some entries /\
     filing_date r = from_option id JNull (assoc "filingDate" mfields) /\
     quality_score r =
       Z.of_nat (length entries) + (if py_bool (filing_date r) then 1 else 0) /\
     (filing_date r = JNull \/ filing_date r = JStr "" ->
      quality_score r = Z.of_nat (length entries)) /\
     (forall s, filing_date r = JStr s -> s ≠ "" ->
      quality_score r = Z.of_nat (length entries) + 1)) /\
  quality_score <$> make_record record_A = Some 2.
Proof.
  intros Hr. split; [|reflexivity].
  unfold make_record in Hr. unfold inventor_entries.
  destruct (py_get entry "applicationMetaData" (JObj [])) as [meta|];
    [|discriminate]; simpl in *.
  destruct (py_get entry "correspondenceAddressBag" (JObj [])); [|discriminate];
    simpl in *.
  destruct (py_get meta "inventorBag" (JArr []) ≫= py_iter) as [entries|] eqn:Hbag;
    [|discriminate]; simpl in *.
  destruct (mapM inventor_name entries) as [names|] eqn:Hnames; [|discriminate];
    simpl in *.
  apply length_mapM in Hnames.
  destruct meta as [| | | | |mfields]; try discriminate.
  exists mfields, entries.
  simplify_option_eq. rewrite Hnames.
  repeat split; try done.
  - intros [->| ->]; simpl; lia.
  - intros s -> Hs. simpl. rewrite bool_decide_eq_false_2 by done. done.
Qed.

(** C8 (as the code has it): a record that is a JSON object is never
    rejected for a missing field, its application number included, as
    long as what is present has the expected shape.  A missing inventor
    bag gives the empty string, but a missing application number, filing
    date, entity type or first-inventor flag is stored as null, and the
    fingerprint digests the text that [str] gives for it, ["None"]. *)
Theorem missing_fields_default
    (fields mfields sfields : list (string * json)) (names : list json)
    (inv : string) :
  from_option id (JObj []) (assoc "applicationMetaData" fields) = JObj mfields ->
  from_option id (JObj []) (assoc "entityStatusData" mfields) = JObj sfields ->
  py_iter (from_option id (JArr []) (assoc "inventorBag" mfields))
    ≫= mapM inventor_name = Some names ->
  py_join ", " names = Some inv ->
  exists r,
    make_record (JObj fields) = Some r /\
    (assoc "applicationNumberText" fields = None -> application_number r = JNull) /\
    (assoc "filingDate" mfields = None -> filing_date r = JNull) /\
    (assoc "businessEntityStatusCategory" sfields = None -> entity_type r = JNull) /\
    (assoc "firstInventorToFileIndicator" mfields = None ->
       first_inventor_flag r = JNull) /\
    (assoc "inventorBag" mfields = None -> inventors r = "") /\
    py_str JNull = "None" /\
    source_fingerprint r =
      SHA256.hexdigest
        (py_str (application_number r) +:+ "-" +:+ inventors r +:+ " | " +:+
         py_str (entity_type r) +:+ " | " +:+ py_str (filing_date r)).
Proof.
  intros Hmeta Hstatus Hnames Hinv.
  unfold make_record, py_get at 1 2; simpl.
  rewrite Hmeta; simpl. rewrite Hstatus; simpl.
  destruct (py_iter _) as [entries|] eqn:Hentries; [|discriminate]; simpl in *.
  rewrite Hnames; simpl. rewrite Hinv; simpl.
  eexists; split; [reflexivity|]; simpl.
  repeat split; try (by intros ->).
  intros Hbag. rewrite Hbag in Hentries. simpl in Hentries.
  injection Hentries as <-. simpl in Hnames. injection Hnames as <-.
  simpl in Hinv. by injection Hinv as <-.
Qed.

(** C10 (as the code has it): the fingerprint is the digest of the raw
    application number and the raw summary text, and cleaning leaves it
    alone.  Two records whose application numbers agree after
    lower-casing and stripping, and whose summary texts do, but which
    are not the same in both, get the same cleaned summary text and
    different fingerprint inputs: their fingerprints differ unless
    SHA-256 collides on the two inputs. *)
Theorem fingerprint_of_raw_text (e1 e2 : json) (r1 r2 : record) :
  make_record e1 = Some r1 ->
  make_record e2 = Some r2 ->
  normalize (py_str (application_number r1)) =
    normalize (py_str (application_number r2)) ->
  normalize (summary_text r1) = normalize (summary_text r2) ->
  (py_str (application_number r1), summary_text r1) ≠
    (py_str (application_number r2), summary_text r2) ->
  let input1 := fingerprint_input (application_number r1) (summary_text r1) in
  let input2 := fingerprint_input (application_number r2) (summary_text r2) in
  summary_text (clean r1) = summary_text (clean r2) /\
  source_fingerprint (clean r1) = SHA256.hexdigest input1 /\
  source_fingerprint (clean r2) = SHA256.hexdigest input2 /\
  input1 ≠ input2 /\
  (source_fingerprint (clean r1) = source_fingerprint (clean r2) ->
   sha256_collision input1 input2).
Proof.
  intros Hr1 Hr2 Hnum Hsum Hne input1 input2.
  destruct (make_record_shape _ _ Hr1) as [_ Hf1].
  destruct (make_record_shape _ _ Hr2) as [_ Hf2].
  assert (input1 ≠ input2) as Hinputs.
  { intros Heq. apply Hne.
    destruct (fingerprint_input_parts _ _ _ _ Hnum Heq) as [-> ->]. done. }
  simpl. repeat split; try done.
  unfold input1, input2. congruence.
Qed.

(** ** Claims about the build *)

(** C2 (as the code has it): the builder does not collapse documents.
    Every entry of [data["patentdata"]] yields exactly one row of each
    table and one item of the vector index, in ingestion order and with
    the fingerprint of its record, whatever the fingerprints are. *)
Theorem build_keeps_every_entry (data : json) (st st' : store) :
  run_pipeline data st = (st', Ok tt) ->
  exists entries records items,
    py_index data "patentdata" ≫= py_iter = Some entries /\
    Forall2 (fun e r => make_record e = Some r) entries records /\
    duckdb st' !! RAW_TABLE = Some records /\
    duckdb st' !! CLEANED_TABLE = Some (map clean records) /\
    chroma st' !! VECTOR_COLLECTION = Some items /\
    length records = length entries /\
    length items = length entries /\
    fingerprints items = map source_fingerprint records.
Proof.
  intros Hrun.
  destruct (run_pipeline_ok_inv _ _ _ Hrun) as (df & embeddings & Hdf & Hemb & ->).
  unfold extract_records in Hdf.
  destruct (py_index data "patentdata" ≫= py_iter) as [entries|] eqn:Hentries;
    [|discriminate].
  simpl in Hdf. apply mapM_Some_1 in Hdf.
  pose proof (Forall2_length _ _ _ Hdf) as Hlen.
  pose proof (length_mapM _ _ _ Hemb) as Hlen'. rewrite !length_map in Hlen'.
  exists entries, df, (new_items df embeddings); simpl.
  rewrite new_tables_raw, new_tables_cleaned, lookup_insert_eq.
  rewrite new_items_length by done.
  repeat split; try done.
  unfold fingerprints. apply list_eq; intros i.
  rewrite !list_lookup_fmap.
  destruct (df !! i) as [r|] eqn:Hr; simpl.
  - destruct (new_items_lookup df embeddings i r) as (e & _ & ->); done.
  - rewrite (lookup_ge_None_2 (new_items df embeddings)); [done|].
    rewrite new_items_length by done. by apply lookup_ge_None_1.
Qed.

(** C3 (as the code has it): what a failed run leaves behind depends on
    where it stopped.  Only a failure of steps 1-2 leaves the store as
    it was.  On an empty batch both tables are gone; when the model
    does not load both tables already hold the new batch; up to there
    the collection is still the old one.  When [model.encode] raises,
    or when [collection.add] refuses a metadata value, the tables hold
    the new batch and the collection has been deleted and created again,
    empty, so that a search finds nothing. *)
Theorem failed_build_effects (data : json) (st st' : store) (e : exn) :
  run_pipeline data st = (st', Raise e) ->
  match e with
  | ExtractError => extract_records data = None /\ st' = st
  | CreateTableError =>
      extract_records data = Some [] /\
      chroma st' = chroma st /\
      duckdb st' !! RAW_TABLE = None /\ duckdb st' !! CLEANED_TABLE = None
  | ModelLoadError =>
      chroma st' = chroma st /\
      exists df, extract_records data = Some df /\
        duckdb st' !! RAW_TABLE = Some df /\
        duckdb st' !! CLEANED_TABLE = Some (map clean df)
  | EncodeError | AddError =>
      chroma st' !! VECTOR_COLLECTION = Some [] /\
      patent_collection st' = [] /\
      (forall q v, encode q = Some v -> search_patents st' q = Results []) /\
      exists df, extract_records data = Some df /\
        (e = AddError -> forallb record_storable df = false) /\
        duckdb st' !! RAW_TABLE = Some df /\
        duckdb st' !! CLEANED_TABLE = Some (map clean df)
  end.
Proof.
  rewrite run_pipeline_cases.
  destruct (extract_records data) as [[|r df]|] eqn:Hdf.
  - intros [= <- <-]; simpl. by simplify_map_eq.
  - assert (forall st1 : store,
      chroma st1 !! VECTOR_COLLECTION = Some [] ->
      patent_collection st1 = [] /\
      (forall q v, encode q = Some v -> search_patents st1 q = Results []))
      as Hempty.
    { intros st1 Hst1.
      assert (patent_collection st1 = []) as Hnil.
      { unfold patent_collection. by rewrite Hst1. }
      split; [done|]. intros q v Hq. unfold search_patents. by rewrite Hq, Hnil. }
    destruct load_model.
    + destruct (mapM encode _).
      * destruct (forallb record_storable (r :: df)) eqn:Hok;
          intros [= <- <-]; cbn [chroma duckdb].
        split; [by rewrite lookup_insert_eq|].
        split; [apply Hempty; cbn [chroma]; by rewrite lookup_insert_eq|].
        split; [apply Hempty; cbn [chroma]; by rewrite lookup_insert_eq|].
        exists (r :: df). by rewrite new_tables_raw, new_tables_cleaned.
      * intros [= <- <-]; cbn [chroma duckdb].
        split; [by rewrite lookup_insert_eq|].
        split; [apply Hempty; cbn [chroma]; by rewrite lookup_insert_eq|].
        split; [apply Hempty; cbn [chroma]; by rewrite lookup_insert_eq|].
        exists (r :: df). by rewrite new_tables_raw, new_tables_cleaned.
    + intros [= <- <-]; simpl. split; [done|].
      exists (r :: df). by rewrite new_tables_raw, new_tables_cleaned.
  - intros [= <- <-]. done.
Qed.

(** C4: in the snapshot that a build produces, the ids of the cleaned
    table (its row positions, printed) and the ids of the vector index
    are the same set; the index has no id twice, as many items as the
    table has rows, and the item at position [i] carries id [str(i)]
    with the summary text and the metadata of row [i]. *)
Theorem snapshot_ids_bijective (data : json) (st st' : store) :
  run_pipeline data st = (st', Ok tt) ->
  exists rows items,
    duckdb st' !! CLEANED_TABLE = Some rows /\
    chroma st' !! VECTOR_COLLECTION = Some items /\
    table_ids rows = index_ids items /\
    NoDup (map item_id items) /\
    length items = length rows /\
    forall i row, rows !! i = Some row ->
      exists x, items !! i = Some x /\ item_id x = pretty i /\
        item_document x = summary_text row /\
        item_metadata x = metadata_of row.
Proof.
  intros Hrun.
  destruct (run_pipeline_ok_inv _ _ _ Hrun) as (df & embeddings & Hdf & Hemb & ->).
  pose proof (length_mapM _ _ _ Hemb) as Hlen. rewrite !length_map in Hlen.
  symmetry in Hlen.
  exists (map clean df), (new_items df embeddings); simpl.
  rewrite new_tables_cleaned, lookup_insert_eq.
  unfold table_ids, index_ids.
  rewrite new_items_ids, new_items_length, !length_map by done.
  repeat split; try done.
  - unfold ids_upto. apply (NoDup_fmap_2 _), NoDup_seq.
  - intros i row Hrow. rewrite list_lookup_fmap in Hrow.
    destruct (df !! i) as [r|] eqn:Hr; [|discriminate].
    injection Hrow as <-.
    destruct (new_items_lookup df embeddings i r Hlen Hr) as (e & _ & ->).
    eexists; split; [done|]. done.
Qed.

(** C5: building twice from the same file is idempotent.  A second run
    on the store left by the first ends the same way and leaves exactly
    that store: the same tables, and the same collection with the same
    ids, fingerprints, vectors and number of documents. *)
Theorem rebuild_idempotent (data : json) (st : store) :
  run_pipeline data (run_pipeline data st).1 = run_pipeline data st.
Proof.
  rewrite (run_pipeline_cases data st).
  destruct (extract_records data) as [[|r df]|] eqn:Hdf.
  - rewrite run_pipeline_cases, Hdf; simpl. by rewrite dropped_tables_idem.
  - destruct load_model eqn:Hload.
    + destruct (mapM encode _) as [embeddings|] eqn:Hemb;
        [destruct (forallb record_storable (r :: df)) eqn:Hok|];
        rewrite run_pipeline_cases, Hdf, Hload, Hemb, ?Hok; cbn [fst duckdb chroma];
        rewrite new_tables_idem.
      * by rewrite insert_insert_eq.
      * by rewrite delete_insert_eq, delete_delete_eq.
      * by rewrite delete_insert_eq, delete_delete_eq.
    + rewrite run_pipeline_cases, Hdf, Hload; simpl. by rewrite new_tables_idem.
  - by rewrite run_pipeline_cases, Hdf.
Qed.

(** ** Claims about the search service *)

Lemma length_insert_ranked (q : vector) (x : item) (ranked : list item) :
  length (insert_ranked q x ranked) = S (length ranked).
Proof.
  induction ranked as [|y rest IH]; simpl; [done|].
  destruct (Qle_bool _ _); simpl; by rewrite ?IH.
Qed.

Lemma length_rank (q : vector) (items : list item) :
  length (rank q items) = length items.
Proof.
  induction items as [|x items IH]; simpl; [done|].
  by rewrite length_insert_ranked, IH.
Qed.

Lemma length_collection_query (items : list item) (q : vector) (n : nat) :
  length (collection_query items q n) = min n (length items).
Proof. unfold collection_query. by rewrite length_take, length_rank. Qed.

Lemma length_remove_dups_le (l : list string) :
  (length (remove_dups l) <= length l)%nat.
Proof.
  induction l as [|x l IH]; simpl; [done|].
  destruct (decide_rel _ _ _); simpl; lia.
Qed.



(** C6: a search that answers returns three results at most, each one
    made of an item of the stored collection; it returns fewer than
    three only when the collection holds fewer than three documents (and
    so fewer than three unique ones), and exactly one when the
    collection holds exactly one. *)
Theorem search_result_size (st : store) (items : list item) (q : string)
    (v : vector) :
  chroma st !! VECTOR_COLLECTION = Some items ->
  encode q = Some v ->
  exists hits,
    search_patents st q = Results hits /\
    (length hits <= 3)%nat /\
    length hits = min 3 (length items) /\
    ((length hits < 3)%nat ->
       (length items < 3)%nat /\ (unique_documents items < 3)%nat) /\
    (length items = 1%nat -> length hits = 1%nat) /\
    (forall h, h ∈ hits -> exists x, x ∈ items /\ h = hit_of x).
Proof.
  intros Hitems Henc. unfold search_patents, patent_collection.
  rewrite Henc, Hitems. simpl.
  eexists; split; [reflexivity|].
  rewrite length_map, length_collection_query.
  pose proof (length_remove_dups_le (fingerprints items)) as Hu.
  unfold unique_documents. unfold fingerprints in *. rewrite length_map in Hu.
  repeat split; try lia.
  intros h (x & -> & Hx)%list_elem_of_fmap.
  exists x. split; [|done].
  unfold collection_query in Hx. apply (subseteq_take 3) in Hx.
  clear -Hx. induction items as [|y items IH]; simpl in Hx; [done|].
  assert (forall ranked, x ∈ insert_ranked v y ranked -> x = y \/ x ∈ ranked)
    as Hins.
  { clear. induction ranked as [|z rest IHr]; simpl.
    - intros ->%list_elem_of_singleton. by left.
    - destruct (Qle_bool _ _).
      + intros [->|Hin]%elem_of_cons; [by left|by right].
      + intros [->|Hin]%elem_of_cons; [right; left|].
        destruct (IHr Hin) as [->|Hin']; [by left|right; by right]. }
  destruct (Hins _ Hx) as [->|Hin]; [left|right; auto].
Qed.

(** C9 (as the code has it): a body without a [query] field is refused
    by the request model with a client error, but an empty [query]
    string is a valid [str]: the handler runs on it like on any other
    text and answers with a result list whenever the embedder returns a
    vector for it. *)
Theorem query_field_validation (st : store) (fields : list (string * json)) :
  (assoc "query" fields = None ->
   post_search st (JObj fields) = ValidationError) /\
  (assoc "query" fields = Some (JStr "") ->
   post_search st (JObj fields) = search_patents st "" /\
   post_search st (JObj fields) ≠ ValidationError /\
   forall v, encode "" = Some v ->
     post_search st (JObj fields) =
     Results (map hit_of (collection_query (patent_collection st) v 3))).
Proof.
  unfold post_search, QueryInput. split; intros ->; [done|].
  unfold search_patents. repeat split.
  - by destruct (encode "").
  - by intros v ->.
Qed.

End Properties.

(** * The claims on the sample data *)

Section FirstCharModel.
#[local] Existing Instance first_char_model.

Example make_record_A : make_record record_A = Some row_A.
Proof. vm_compute. reflexivity. Qed.

Example make_record_a : make_record record_a = Some row_a.
Proof. vm_compute. reflexivity. Qed.



(** C2, counterexample: the same record ingested twice gives two rows
    and two items, with one and the same fingerprint. *)
Lemma dedup_counterexample :
  let st := built [record_A; record_A] in
  run_pipeline (file_of [record_A; record_A]) empty_store = (st, Ok tt) /\
  duckdb st !! CLEANED_TABLE = Some [clean row_A; clean row_A] /\
  map item_id (patent_collection st) = ["0"; "1"] /\
  fingerprints (patent_collection st) =
    [source_fingerprint row_A; source_fingerprint row_A] /\
  length (patent_collection st) ≠ 1%nat.
Proof.
  repeat split; try (vm_compute; reflexivity).
  vm_compute. discriminate.
Qed.

Lemma build_keeps_every_entry_witness :
  exists entries records items,
    py_index (file_of [record_A; record_A]) "patentdata" ≫= py_iter = Some entries /\
    Forall2 (fun e r => make_record e = Some r) entries records /\
    duckdb (built [record_A; record_A]) !! RAW_TABLE = Some records /\
    duckdb (built [record_A; record_A]) !! CLEANED_TABLE = Some (map clean records) /\
    chroma (built [record_A; record_A]) !! VECTOR_COLLECTION = Some items /\
    length records = length entries /\
    length items = length entries /\
    fingerprints items = map source_fingerprint records.
Proof.
  apply (build_keeps_every_entry (file_of [record_A; record_A]) empty_store).
  vm_compute. reflexivity.
Defined.

Lemma snapshot_ids_bijective_witness :
  exists rows items,
    duckdb (built [record_A; record_3M]) !! CLEANED_TABLE = Some rows /\
    chroma (built [record_A; record_3M]) !! VECTOR_COLLECTION = Some items /\
    table_ids rows = index_ids items /\
    NoDup (map item_id items) /\
    length items = length rows /\
    forall i row, rows !! i = Some row ->
      exists x, items !! i = Some x /\ item_id x = pretty i /\
        item_document x = summary_text row /\
        item_metadata x = metadata_of row.
Proof.
  apply (snapshot_ids_bijective (file_of [record_A; record_3M]) empty_store).
  vm_compute. reflexivity.
Defined.

Lemma search_result_size_witness :
  exists hits,
    search_patents (built [record_A]) "alice smith" = Results hits /\
    (length hits <= 3)%nat /\
    length hits = min 3 (length [item_A]) /\
    ((length hits < 3)%nat ->
       (length [item_A] < 3)%nat /\ (unique_documents [item_A] < 3)%nat) /\
    (length [item_A] = 1%nat -> length hits = 1%nat) /\
    (forall h, h ∈ hits -> exists x, x ∈ [item_A] /\ h = hit_of x).
Proof.
  apply (search_result_size (collab := first_char_model)
           (built [record_A]) [item_A] "alice smith" 97).
  - vm_compute. reflexivity.
  - reflexivity.
Defined.

Lemma quality_score_counts_witness :
  (exists mfields entries,
     py_get record_A "applicationMetaData" (JObj []) = Some (JObj mfields) /\
     inventor_entries record_A = Some entries /\
     filing_date row_A = from_option id JNull (assoc "filingDate" mfields) /\
     quality_score row_A =
       Z.of_nat (length entries) + (if py_bool (filing_date row_A) then 1 else 0) /\
     (filing_date row_A = JNull \/ filing_date row_A = JStr "" ->
      quality_score row_A = Z.of_nat (length entries)) /\
     (forall s, filing_date row_A = JStr s -> s ≠ "" ->
      quality_score row_A = Z.of_nat (length entries) + 1)) /\
  quality_score <$> make_record record_A = Some 2.
Proof.
  apply (quality_score_counts record_A row_A).
  vm_compute. reflexivity.
Defined.

(** C7, counterexample: three inventor entries without a name and an
    empty filing date.  No entry is populated and the filing-date field
    is present, which makes 1 in the words of the specification; the
    loop counts the three entries and nothing for the empty date. *)
Lemma quality_score_counterexample :
  exists r,
    make_record record_unnamed = Some r /\
    inventor_entries record_unnamed = Some [JObj []; JObj []; JObj []] /\
    List.filter populated [JObj []; JObj []; JObj []] = [] /\
    assoc "filingDate" unnamed_fields = Some (JStr "") /\
    specified_quality_score unnamed_fields [JObj []; JObj []; JObj []] = 1 /\
    quality_score r = 3 /\
    quality_score r ≠ specified_quality_score unnamed_fields [JObj []; JObj []; JObj []].
Proof.
  eexists. split; [vm_compute; reflexivity|].
  repeat split; try (vm_compute; reflexivity).
  vm_compute. discriminate.
Qed.

(** C8, counterexample: a record without any field is not rejected;
    its application number, filing date and entity type are null, not
    the empty string, and the fingerprint digests the text ["None"]. *)
Lemma missing_fields_counterexample :
  exists r,
    make_record (JObj []) = Some r /\
    application_number r = JNull /\
    filing_date r = JNull /\ filing_date r ≠ JStr "" /\
    entity_type r = JNull /\
    summary_text r = " | None | None" /\
    source_fingerprint r = SHA256.hexdigest "None- | None | None".
Proof.
  eexists. split; [vm_compute; reflexivity|].
  repeat split; try (vm_compute; reflexivity).
  simpl. discriminate.
Qed.

Lemma missing_fields_default_witness :
  exists r,
    make_record (JObj []) = Some r /\
    (assoc "applicationNumberText" [] = None -> application_number r = JNull) /\
    (assoc "filingDate" [] = None -> filing_date r = JNull) /\
    (assoc "businessEntityStatusCategory" [] = None -> entity_type r = JNull) /\
    (assoc "firstInventorToFileIndicator" [] = None ->
       first_inventor_flag r = JNull) /\
    (assoc "inventorBag" [] = None -> inventors r = "") /\
    py_str JNull = "None" /\
    source_fingerprint r =
      SHA256.hexdigest
        (py_str (application_number r) +:+ "-" +:+ inventors r +:+ " | " +:+
         py_str (entity_type r) +:+ " | " +:+ py_str (filing_date r)).
Proof.
  apply (missing_fields_default [] [] [] [] ""); reflexivity.
Defined.

(** C9, counterexample: a request with an empty query string is
    answered with a result list. *)
Lemma empty_query_counterexample :
  post_search (built [record_A]) (JObj [("query", JStr "")]) =
    Results [hit_of (@Item first_char_model "0"
                       "alice smith | undiscounted | 2024-01-01" 97
                       (metadata_of row_A))] /\
  post_search (built [record_A]) (JObj [("query", JStr "")]) ≠ ValidationError.
Proof.
  split; [vm_compute; reflexivity|].
  vm_compute. discriminate.
Qed.

Lemma query_field_validation_witness :
  post_search (built [record_A]) (JObj []) = ValidationError /\
  post_search (built [record_A]) (JObj [("query", JStr "")]) =
    search_patents (built [record_A]) "".
Proof.
  split.
  - exact (proj1 (query_field_validation (built [record_A]) []) eq_refl).
  - exact (proj1 (proj2 (query_field_validation (built [record_A])
                           [("query", JStr "")]) eq_refl)).
Defined.

(** C10, counterexample: a blank before the entity type is a
    difference in surrounding whitespace only, yet the two cleaned
    summary texts differ; and two records that differ only in the case
    of the first-inventor flag have one and the same fingerprint. *)
Lemma fingerprint_case_counterexample :
  (exists r1 r2,
     make_record record_A = Some r1 /\ make_record record_A_blank = Some r2 /\
     strip (py_str (entity_type r2)) = py_str (entity_type r1) /\
     summary_text (clean r1) ≠ summary_text (clean r2)) /\
  (exists r3 r4,
     make_record (flagged "Y") = Some r3 /\ make_record (flagged "y") = Some r4 /\
     first_inventor_flag r3 ≠ first_inventor_flag r4 /\
     summary_text (clean r3) = summary_text (clean r4) /\
     source_fingerprint r3 = source_fingerprint r4).
Proof.
  split.
  - do 2 eexists. split; [vm_compute; reflexivity|].
    split; [vm_compute; reflexivity|].
    split; [vm_compute; reflexivity|].
    vm_compute. discriminate.
  - do 2 eexists. split; [vm_compute; reflexivity|].
    split; [vm_compute; reflexivity|].
    split; [simpl; discriminate|].
    split; vm_compute; reflexivity.
Qed.

Lemma fingerprint_of_raw_text_witness :
  let input1 := fingerprint_input (application_number row_A) (summary_text row_A) in
  let input2 := fingerprint_input (application_number row_a) (summary_text row_a) in
  summary_text (clean row_A) = summary_text (clean row_a) /\
  source_fingerprint (clean row_A) = SHA256.hexdigest input1 /\
  source_fingerprint (clean row_a) = SHA256.hexdigest input2 /\
  input1 ≠ input2 /\
  (source_fingerprint (clean row_A) = source_fingerprint (clean row_a) ->
   sha256_collision input1 input2).
Proof.
  apply (fingerprint_of_raw_text record_A record_a row_A row_a);
    try (vm_compute; reflexivity).
  vm_compute. discriminate.
Defined.

End FirstCharModel.

Section LimitedModel.
#[local] Existing Instance limited_model.

(** C3, counterexample: the store holds the snapshot built from the 3M
    record.  A build on record A stops in [model.encode], and a build on
    a record without a filing date stops in [collection.add]: either
    way the store is not the one from before the build.  The tables
    hold the new batch, the collection is empty, and the search that
    found the 3M document finds nothing. *)
Lemma failed_build_counterexample :
  let st0 := built [record_3M] in
  let st1 := (run_pipeline (file_of [record_A]) st0).1 in
  let st2 := (run_pipeline (file_of [record_bare]) st0).1 in
  (map item_document <$> chroma st0 !! VECTOR_COLLECTION) =
    Some ["3m company | regular | 2023-05-05"] /\
  (summary <$> top_result (search_patents st0 "3m company")) =
    Some "3m company | regular | 2023-05-05" /\
  run_pipeline (file_of [record_A]) st0 = (st1, Raise EncodeError) /\
  chroma st1 !! VECTOR_COLLECTION = Some [] /\
  search_patents st1 "3m company" = Results [] /\
  duckdb st1 !! CLEANED_TABLE = Some [clean row_A] /\
  st1 ≠ st0 /\
  run_pipeline (file_of [record_bare]) st0 = (st2, Raise AddError) /\
  chroma st2 !! VECTOR_COLLECTION = Some [] /\
  search_patents st2 "3m company" = Results [] /\
  st2 ≠ st0.
Proof.
  repeat split; try (vm_compute; reflexivity).
  - intros Heq. apply (f_equal patent_collection) in Heq.
    vm_compute in Heq. discriminate.
  - intros Heq. apply (f_equal patent_collection) in Heq.
    vm_compute in Heq. discriminate.
Qed.

Lemma failed_build_effects_witness :
  let st0 := built [record_3M] in
  let st1 := (run_pipeline (file_of [record_A]) st0).1 in
  chroma st1 !! VECTOR_COLLECTION = Some [] /\
  patent_collection st1 = [] /\
  (forall q v, encode q = Some v -> search_patents st1 q = Results []) /\
  exists df, extract_records (file_of [record_A]) = Some df /\
    (EncodeError = AddError -> forallb record_storable df = false) /\
    duckdb st1 !! RAW_TABLE = Some df /\
    duckdb st1 !! CLEANED_TABLE = Some (map clean df).
Proof.
  apply (failed_build_effects (file_of [record_A]) (built [record_3M]) _ EncodeError).
  vm_compute. reflexivity.
Defined.

End LimitedModel.

(** * Further properties of the two scripts *)

Section Normalization.

Lemma lower_char_idem (c : ascii) : lower_char (lower_char c) = lower_char c.
Proof. destruct c as [[] [] [] [] [] [] [] []]; reflexivity. Qed.

Lemma is_space_lower_char (c : ascii) : is_space (lower_char c) = is_space c.
Proof. destruct c as [[] [] [] [] [] [] [] []]; reflexivity. Qed.

Lemma is_upper_lower_char (c : ascii) : is_upper (lower_char c) = false.
Proof. destruct c as [[] [] [] [] [] [] [] []]; reflexivity. Qed.

Lemma lower_idem (s : string) : lower (lower s) = lower s.
Proof.
  induction s as [|c s IH]; simpl; [done|]. by rewrite lower_char_idem, IH.
Qed.

Lemma lstrip_lower (s : string) : lstrip (lower s) = lower (lstrip s).
Proof.
  induction s as [|c s IH]; simpl; [done|].
  rewrite is_space_lower_char. by destruct (is_space c).
Qed.

Lemma rstrip_lower (s : string) : rstrip (lower s) = lower (rstrip s).
Proof.
  induction s as [|c s IH]; simpl; [done|].
  rewrite IH, is_space_lower_char.
  destruct (rstrip s); simpl; [by destruct (is_space c)|done].
Qed.

Lemma strip_lower (s : string) : strip (lower s) = lower (strip s).
Proof. unfold strip. by rewrite lstrip_lower, rstrip_lower. Qed.

Lemma rstrip_idem (s : string) : rstrip (rstrip s) = rstrip s.
Proof.
  induction s as [|c s IH]; simpl; [done|].
  destruct (rstrip s) as [|a t] eqn:E.
  - destruct (is_space c) eqn:Hc; simpl; [done|]. by rewrite Hc.
  - simpl in *. by rewrite IH.
Qed.

(** What [lstrip] returns does not begin with a blank. *)
Lemma lstrip_head (s : string) (c : ascii) (rest : string) :
  lstrip s = String c rest -> is_space c = false.
Proof.
  induction s as [|a s IH]; simpl; [done|].
  destruct (is_space a) eqn:Ha; [done|]. by intros [= <- _].
Qed.

(** Stripping on the right keeps the first character of a text that
    does not begin with a blank. *)
Lemma rstrip_keeps_head (c : ascii) (s : string) :
  is_space c = false -> exists rest, rstrip (String c s) = String c rest.
Proof.
  intros Hc; simpl. destruct (rstrip s); [rewrite Hc|]; eauto.
Qed.

Lemma lstrip_strip (s : string) : lstrip (strip s) = strip s.
Proof.
  unfold strip. destruct (lstrip s) as [|c t] eqn:E; [done|].
  pose proof (lstrip_head _ _ _ E) as Hc.
  destruct (rstrip_keeps_head c t Hc) as [rest ->].
  simpl. by rewrite Hc.
Qed.

Lemma strip_idem (s : string) : strip (strip s) = strip s.
Proof.
  unfold strip at 1. rewrite lstrip_strip. unfold strip. apply rstrip_idem.
Qed.

Lemma normalize_idem (s : string) : normalize (normalize s) = normalize s.
Proof.
  unfold normalize. by rewrite <- strip_lower, lower_idem, strip_idem.
Qed.

(** What [rstrip] returns does not end with a blank. *)
Lemma rstrip_last (s init : string) (c : ascii) :
  rstrip s = init +:+ String c "" -> is_space c = false.
Proof.
  revert init. induction s as [|a s IH]; intros init; simpl.
  - destruct init; discriminate.
  - destruct (rstrip s) as [|b t] eqn:E.
    + destruct (is_space a) eqn:Ha; [destruct init; discriminate|].
      destruct init as [|b init]; [by intros [= <-]|].
      rewrite append_cons. intros [= _ Hinit]. destruct init; discriminate.
    + destruct init as [|b' init]; [discriminate|].
      rewrite append_cons. intros [= _ Hinit]. by eapply IH.
Qed.

Lemma no_upper_lower (s : string) :
  Forall (fun c => is_upper c = false) (list_ascii_of_string (lower s)).
Proof.
  induction s as [|c s IH]; simpl; constructor; [apply is_upper_lower_char|done].
Qed.

Lemma ascii_lower_char (c : ascii) :
  ascii_char c = true -> ascii_char (lower_char c) = true.
Proof. by destruct c as [[] [] [] [] [] [] [] []]. Qed.

Lemma is_ascii_lower (s : string) : is_ascii s -> is_ascii (lower s).
Proof.
  unfold is_ascii. induction s as [|c s IH]; simpl; [done|].
  intros [Hc Hs]%Forall_cons. constructor; [by apply ascii_lower_char|auto].
Qed.

Lemma is_ascii_lstrip (s : string) : is_ascii s -> is_ascii (lstrip s).
Proof.
  unfold is_ascii. induction s as [|c s IH]; simpl; [done|].
  intros Hall. destruct (is_space c); [|done].
  apply Forall_cons in Hall as [_ Hs]. auto.
Qed.

Lemma is_ascii_rstrip (s : string) : is_ascii s -> is_ascii (rstrip s).
Proof.
  unfold is_ascii. induction s as [|c s IH]; simpl; [done|].
  intros [Hc Hs]%Forall_cons. specialize (IH Hs).
  destruct (rstrip s) as [|a t].
  - destruct (is_space c); simpl; [apply Forall_nil_2|].
    apply Forall_cons_2; [done|apply Forall_nil_2].
  - simpl in *. by apply Forall_cons_2.
Qed.

Lemma is_ascii_normalize (s : string) : is_ascii s -> is_ascii (normalize s).
Proof.
  intros Hs. unfold normalize, strip.
  by apply is_ascii_rstrip, is_ascii_lstrip, is_ascii_lower.
Qed.

End Normalization.

Section Build.
Context {collab : Collaborators}.

(** Every item that a run zips together comes from one row: its id is
    the row position, its document the cleaned summary text, its
    embedding the encoding of that very text and its metadata the row's. *)
Lemma new_items_elem (df : list record) (embeddings : list vector) (x : item) :
  mapM encode (map summary_text (map clean df)) = Some embeddings ->
  x ∈ new_items df embeddings ->
  exists i r,
    df !! i = Some r /\
    x = Item (pretty i) (normalize (summary_text r)) (item_embedding x)
          (metadata_of (clean r)) /\
    encode (normalize (summary_text r)) = Some (item_embedding x).
Proof.
  intros Hemb Hx.
  pose proof (length_mapM _ _ _ Hemb) as Hlen. rewrite !length_map in Hlen.
  symmetry in Hlen.
  apply list_elem_of_lookup in Hx as [i Hi].
  assert (i < length df)%nat as Hlt.
  { rewrite <- (new_items_length df embeddings Hlen). by eapply lookup_lt_Some. }
  destruct (lookup_lt_is_Some_2 df i Hlt) as [r Hr].
  destruct (new_items_lookup df embeddings i r Hlen Hr) as (e & He & Hitem).
  rewrite Hitem in Hi. injection Hi as <-. simpl.
  exists i, r. repeat split; try done.
  apply mapM_Some_1 in Hemb.
  eapply (Forall2_lookup_lr _ _ _ i) in Hemb; [exact Hemb| |exact He].
  rewrite !list_lookup_fmap, Hr. done.
Qed.

(** X1: cleaning is idempotent on ASCII text.  A row whose two text
    columns are ASCII is cleaned into a row whose text columns are ASCII
    again, and cleaning that row once more changes nothing. *)
Theorem clean_idempotent (r : record) :
  is_ascii (summary_text r) -> is_ascii (inventors r) ->
  clean (clean r) = clean r /\
  is_ascii (summary_text (clean r)) /\ is_ascii (inventors (clean r)).
Proof.
  intros Hsum Hinv. split; [|split; simpl; by apply is_ascii_normalize].
  unfold clean; simpl. by rewrite !normalize_idem.
Qed.

(** X2: when the summary texts of the file's records are ASCII, every
    document of the collection that a build leaves is ASCII, has no
    capital letter, does not begin with a whitespace character and does
    not end with one. *)
Theorem stored_documents_canonical (data : json) (st st' : store)
    (df : list record) (items : list item) (x : item) :
  run_pipeline data st = (st', Ok tt) ->
  extract_records data = Some df ->
  Forall (fun r => is_ascii (summary_text r)) df ->
  chroma st' !! VECTOR_COLLECTION = Some items ->
  x ∈ items ->
  is_ascii (item_document x) /\
  Forall (fun c => is_upper c = false) (list_ascii_of_string (item_document x)) /\
  (forall c rest, item_document x = String c rest -> is_space c = false) /\
  (forall init c, item_document x = init +:+ String c "" -> is_space c = false).
Proof.
  intros Hrun Hdf Hascii Hitems Hx.
  destruct (run_pipeline_ok_inv _ _ _ Hrun) as (df' & embeddings & Hdf' & Hemb & ->).
  rewrite Hdf in Hdf'. injection Hdf' as <-.
  simpl in Hitems. rewrite lookup_insert_eq in Hitems. injection Hitems as <-.
  destruct (new_items_elem _ _ _ Hemb Hx) as (i & r & Hr & -> & _); simpl.
  rewrite Forall_lookup in Hascii. specialize (Hascii i r Hr).
  repeat split.
  - by apply is_ascii_normalize.
  - unfold normalize. rewrite strip_lower. apply no_upper_lower.
  - intros c rest Hdoc. apply (lstrip_head (normalize (summary_text r)) c rest).
    unfold normalize in *. by rewrite lstrip_strip.
  - intros init c Hdoc. by apply (rstrip_last _ _ _ Hdoc).
Qed.

(** X3: the vectors are aligned with their texts.  In the collection
    that a build leaves, the embedding of every item is what the model
    returns for that item's own document. *)
Theorem stored_embeddings_aligned (data : json) (st st' : store) (x : item) :
  run_pipeline data st = (st', Ok tt) ->
  x ∈ patent_collection st' ->
  encode (item_document x) = Some (item_embedding x).
Proof.
  intros Hrun Hx.
  destruct (run_pipeline_ok_inv _ _ _ Hrun) as (df & embeddings & _ & Hemb & ->).
  unfold patent_collection in Hx; simpl in Hx.
  rewrite lookup_insert_eq in Hx; simpl in Hx.
  destruct (new_items_elem _ _ _ Hemb Hx) as (i & r & _ & Heq & Henc).
  rewrite Heq at 1. exact Henc.
Qed.

(** X4: a run touches nothing but its own two tables and its own
    collection: whatever the outcome, every other table of the database
    and every other collection of the vector store is as it was. *)
Theorem run_pipeline_frame (data : json) (st : store) (name : string) :
  (name ≠ RAW_TABLE -> name ≠ CLEANED_TABLE ->
   duckdb (run_pipeline data st).1 !! name = duckdb st !! name) /\
  (name ≠ VECTOR_COLLECTION ->
   chroma (run_pipeline data st).1 !! name = chroma st !! name).
Proof.
  rewrite run_pipeline_cases. unfold new_tables.
  destruct (extract_records data) as [[|r df]|];
    [|destruct load_model;
      [destruct (mapM encode _); [destruct (forallb record_storable _)|]|]|];
    cbn [fst duckdb chroma]; split; intros;
    rewrite ?lookup_insert_ne, ?lookup_delete_ne by done; done.
Qed.

(** X5: what a run needs to succeed.  On a file whose records have a
    string or nothing for application number, filing date and entity
    type, a run succeeds only if the file yields at least one record,
    the model loads, every cleaned summary text gets an embedding, and
    no record lacks one of the three: a [None] among the metadata makes
    [collection.add] raise. *)
Theorem run_pipeline_success_requires (data : json) (st st' : store)
    (df : list record) :
  run_pipeline data st = (st', Ok tt) ->
  extract_records data = Some df ->
  Forall plain_fields df ->
  df ≠ [] /\
  load_model = true /\
  Forall (fun r => is_Some (encode (normalize (summary_text r)))) df /\
  Forall text_fields df.
Proof.
  rewrite run_pipeline_cases. intros Hrun Hdf Hplain. rewrite Hdf in Hrun.
  destruct df as [|r df]; try discriminate.
  destruct load_model; try discriminate.
  destruct (mapM encode _) as [embeddings|] eqn:Hemb; try discriminate.
  destruct (forallb record_storable (r :: df)) eqn:Hok; try discriminate.
  repeat split; try done.
  - assert (is_Some (mapM encode (map summary_text (map clean (r :: df)))))
      as Hsome by (by rewrite Hemb).
    apply mapM_is_Some_1 in Hsome.
    rewrite !Forall_fmap in Hsome. exact Hsome.
  - rewrite forallb_forall in Hok. rewrite Forall_forall in Hplain.
    apply Forall_forall. intros r' Hr'. specialize (Hplain r' Hr').
    apply list_elem_of_In in Hr'. specialize (Hok r' Hr').
    unfold record_storable, metadata_ok, metadata_of in Hok; simpl in Hok.
    apply andb_prop in Hok as [Hok He]. apply andb_prop in Hok as [Ha Hf].
    destruct Hplain as ([Ha'|[a Ha']] & [Hf'|[f Hf']] & [He'|[e He']]);
      rewrite ?Ha' in Ha; rewrite ?Hf' in Hf; rewrite ?He' in He;
      try discriminate.
    by exists a, f, e.
Qed.

(** X6: the snapshot is rebuilt from scratch.  When a run succeeds from
    one store it succeeds from any other, and the two tables and the
    collection it leaves are the same: they depend on the file only. *)
Theorem snapshot_independent_of_store (data : json) (st1 st1' st2 : store) :
  run_pipeline data st1 = (st1', Ok tt) ->
  exists st2',
    run_pipeline data st2 = (st2', Ok tt) /\
    duckdb st2' !! RAW_TABLE = duckdb st1' !! RAW_TABLE /\
    duckdb st2' !! CLEANED_TABLE = duckdb st1' !! CLEANED_TABLE /\
    chroma st2' !! VECTOR_COLLECTION = chroma st1' !! VECTOR_COLLECTION.
Proof.
  intros Hrun.
  destruct (run_pipeline_ok_inv _ _ _ Hrun) as (df & embeddings & Hdf & Hemb & ->).
  rewrite (run_pipeline_cases data st1) in Hrun.
  rewrite run_pipeline_cases, Hdf in *.
  destruct df as [|r df]; [discriminate|].
  destruct load_model; [|discriminate].
  rewrite Hemb in *.
  destruct (forallb record_storable (r :: df)); [|discriminate].
  eexists; split; [reflexivity|]; simpl.
  by rewrite !new_tables_raw, !new_tables_cleaned, !lookup_insert_eq.
Qed.

(** X7: one bad entry stops the whole batch.  A run ends with the
    extraction error exactly when the file has no iterable
    ["patentdata"] or the loop body raises on one of its entries; the
    store is then as it was, the entries before the bad one included. *)
Theorem extraction_failure_iff (data : json) (st : store) :
  ((run_pipeline data st).2 = Raise ExtractError <->
   (py_index data "patentdata" ≫= py_iter = None \/
    exists entries e,
      py_index data "patentdata" ≫= py_iter = Some entries /\
      e ∈ entries /\ make_record e = None)) /\
  ((run_pipeline data st).2 = Raise ExtractError ->
   (run_pipeline data st).1 = st).
Proof.
  rewrite run_pipeline_cases. unfold extract_records.
  destruct (py_index data "patentdata" ≫= py_iter) as [entries|]; simpl.
  - destruct (mapM make_record entries) as [[|r df]|] eqn:Hmap; cbn [fst snd].
    + split; [|done]. split; [done|].
      intros [|(entries' & e & [= <-] & He & Hnone)]; [done|].
      assert (mapM make_record entries = None) as Hn; [|congruence].
      apply mapM_None_2, Exists_exists. eauto.
    + split.
      * split; [by destruct load_model;
                  [destruct (mapM encode _); [destruct (forallb _ _)|]|]|].
        intros [|(entries' & e & [= <-] & He & Hnone)]; [done|].
        assert (mapM make_record entries = None) as Hn; [|congruence].
        apply mapM_None_2, Exists_exists. eauto.
      * by destruct load_model;
          [destruct (mapM encode _); [destruct (forallb _ _)|]|].
    + split; [|done]. split; [|done]. intros _. right.
      apply mapM_None_1, Exists_exists in Hmap as (e & He & Hnone).
      exists entries, e. done.
  - split; [|done]. split; [by left|done].
Qed.

End Build.

Section Extraction.
Context {collab : Collaborators}.





End Extraction.

Section Search.
Context {collab : Collaborators}.

Lemma elem_of_insert_ranked (q : vector) (x y : item) (ranked : list item) :
  y ∈ insert_ranked q x ranked -> y = x \/ y ∈ ranked.
Proof.
  induction ranked as [|z rest IH]; simpl.
  - intros ->%list_elem_of_singleton. by left.
  - destruct (Qle_bool _ _).
    + intros [->|Hy]%elem_of_cons; [by left|by right].
    + intros [->|Hy]%elem_of_cons; [right; left|].
      destruct (IH Hy) as [->|Hin]; [by left|right; by right].
Qed.

Lemma elem_of_rank (q : vector) (items : list item) (y : item) :
  y ∈ rank q items -> y ∈ items.
Proof.
  induction items as [|x items IH]; simpl; [done|].
  intros [->|Hy]%elem_of_insert_ranked; [left|right; auto].
Qed.

Lemma elem_of_collection_query (items : list item) (q : vector) (n : nat) (y : item) :
  y ∈ collection_query items q n -> y ∈ items.
Proof.
  unfold collection_query. intros Hy.
  apply (elem_of_rank q). by apply (subseteq_take n).
Qed.

(** X9: what a search returns is what the build stored.  After a
    successful run on a file whose records have strings for application
    number, filing date and entity type, every hit of every search is
    the hit of one of the file's records: its summary is that record's
    cleaned summary text, and its application number, filing date,
    entity type, quality score and fingerprint are that record's. *)
Theorem search_hits_from_records (data : json) (st st' : store)
    (df : list record) (q : string) (hits : list hit) :
  run_pipeline data st = (st', Ok tt) ->
  extract_records data = Some df ->
  Forall text_fields df ->
  search_patents st' q = Results hits ->
  forall h, h ∈ hits -> exists r, r ∈ df /\ h = hit_of_row r.
Proof.
  intros Hrun Hdf _ Hsearch.
  destruct (run_pipeline_ok_inv _ _ _ Hrun) as (df' & embeddings & Hdf' & Hemb & ->).
  rewrite Hdf in Hdf'. injection Hdf' as <-.
  unfold search_patents in Hsearch.
  destruct (encode q) as [v|]; [|discriminate].
  injection Hsearch as <-.
  intros h (x & -> & Hx)%list_elem_of_fmap.
  apply elem_of_collection_query in Hx.
  unfold patent_collection in Hx; simpl in Hx.
  rewrite lookup_insert_eq in Hx; simpl in Hx.
  destruct (new_items_elem _ _ _ Hemb Hx) as (i & r & Hr & -> & _).
  exists r. split; [by eapply list_elem_of_lookup_2|done].
Qed.

(** X10: after a successful run on a file of [n] entries, a search whose
    query embeds returns [min 3 n] results: exactly three as soon as the
    file has three entries, duplicates included. *)
Theorem search_count_after_build (data : json) (st st' : store)
    (entries : list json) (q : string) (v : vector) :
  run_pipeline data st = (st', Ok tt) ->
  py_index data "patentdata" ≫= py_iter = Some entries ->
  encode q = Some v ->
  exists hits,
    search_patents st' q = Results hits /\
    length hits = min 3 (length entries).
Proof.
  intros Hrun Hentries Hq.
  destruct (run_pipeline_ok_inv _ _ _ Hrun) as (df & embeddings & Hdf & Hemb & ->).
  unfold extract_records in Hdf. rewrite Hentries in Hdf. simpl in Hdf.
  apply length_mapM in Hdf. apply length_mapM in Hemb.
  rewrite !length_map in Hemb.
  unfold search_patents. rewrite Hq. eexists; split; [reflexivity|].
  rewrite length_map, length_collection_query.
  unfold patent_collection; simpl. rewrite lookup_insert_eq; simpl.
  rewrite new_items_length by done. by rewrite Hdf.
Qed.

(** X11: before any build the service answers with an empty list, not
    with an error: on a store without the collection, a search whose
    query embeds returns no result. *)
Theorem search_without_collection (st : store) (q : string) (v : vector) :
  chroma st !! VECTOR_COLLECTION = None ->
  encode q = Some v ->
  search_patents st q = Results [].
Proof.
  intros Hnone Hq. unfold search_patents, patent_collection.
  by rewrite Hq, Hnone.
Qed.

End Search.

Section Fingerprint.
Context {collab : Collaborators}.

Lemma length_compress (h block : list Z) :
  length h = 8%nat -> length (SHA256.compress h block) = 8%nat.
Proof.
  intros Hh. unfold SHA256.compress.
  rewrite length_map, length_combine, Hh. reflexivity.
Qed.

Lemma length_blocks (fuel : nat) (ws h : list Z) :
  length h = 8%nat -> length (SHA256.blocks fuel ws h) = 8%nat.
Proof.
  revert ws h. induction fuel as [|fuel IH]; intros ws h Hh; simpl; [done|].
  destruct ws; [done|]. apply IH. by apply length_compress.
Qed.

Lemma length_digest (msg : list Z) : length (SHA256.digest msg) = 8%nat.
Proof. unfold SHA256.digest. by apply length_blocks. Qed.

Lemma list_ascii_of_string_app (s t : string) :
  list_ascii_of_string (s +:+ t) =
  (list_ascii_of_string s ++ list_ascii_of_string t)%list.
Proof.
  induction s as [|c s IH]; [done|].
  rewrite append_cons. simpl. by rewrite IH.
Qed.

Lemma hex_digit_is_hex (d : Z) :
  (0 <= d < 16)%Z -> is_hex_char (SHA256.hex_digit d) = true.
Proof.
  intros Hd.
  assert (d = 0 \/ d = 1 \/ d = 2 \/ d = 3 \/ d = 4 \/ d = 5 \/ d = 6 \/ d = 7 \/
          d = 8 \/ d = 9 \/ d = 10 \/ d = 11 \/ d = 12 \/ d = 13 \/ d = 14 \/
          d = 15)%Z as Hcases by lia.
  repeat (destruct Hcases as [->|Hcases]; [reflexivity|]).
  by subst.
Qed.

Lemma hex_chars (n : nat) (x : Z) :
  String.length (SHA256.hex n x) = n /\
  Forall (fun c => is_hex_char c = true) (list_ascii_of_string (SHA256.hex n x)).
Proof.
  revert x. induction n as [|n IH]; intros x; simpl; [by split|].
  destruct (IH (x / 16)%Z) as [Hlen Hall].
  rewrite length_app, list_ascii_of_string_app, Hlen. split; [simpl; lia|].
  apply Forall_app. split; [done|]. simpl. constructor; [|constructor].
  apply hex_digit_is_hex, Z.mod_pos_bound. lia.
Qed.

Lemma hexdigest_chars (s : string) :
  String.length (SHA256.hexdigest s) = 64%nat /\
  Forall (fun c => is_hex_char c = true) (list_ascii_of_string (SHA256.hexdigest s)).
Proof.
  unfold SHA256.hexdigest.
  pose proof (length_digest (SHA256.bytes_of_string s)) as Hlen.
  set (ws := SHA256.digest _) in *. clearbody ws.
  assert (forall l : list Z,
    String.length (fold_right (fun w acc => SHA256.hex 8 w +:+ acc) "" l)
      = (8 * length l)%nat /\
    Forall (fun c => is_hex_char c = true)
      (list_ascii_of_string
         (fold_right (fun w acc => SHA256.hex 8 w +:+ acc) "" l))) as Hfold.
  { induction l as [|w l [IHlen IHall]]; [by split|].
    cbn [fold_right]. destruct (hex_chars 8 w) as [Hw Hwall].
    rewrite length_app, list_ascii_of_string_app, Hw, IHlen.
    split; [simpl; lia|]. by apply Forall_app. }
  destruct (Hfold ws) as [-> Hall]. by rewrite Hlen.
Qed.

(** X12: the fingerprint of every record is a hexadecimal digest: 64
    characters, each a digit or a letter from [a] to [f], whatever the
    fields of the entry are. *)
Theorem fingerprint_is_hex_digest (entry : json) (r : record) :
  make_record entry = Some r ->
  String.length (source_fingerprint r) = 64%nat /\
  Forall (fun c => is_hex_char c = true)
    (list_ascii_of_string (source_fingerprint r)).
Proof.
  intros Hr. destruct (make_record_shape _ _ Hr) as [_ ->].
  apply hexdigest_chars.
Qed.

End Fingerprint.

(** * The further properties on the sample data *)

Section FurtherSamples.
#[local] Existing Instance first_char_model.

Lemma clean_idempotent_witness :
  clean (clean row_A) = clean row_A /\
  is_ascii (summary_text (clean row_A)) /\ is_ascii (inventors (clean row_A)).
Proof.
  apply (clean_idempotent row_A).
  - unfold is_ascii. vm_compute. repeat constructor.
  - unfold is_ascii. vm_compute. repeat constructor.
Defined.

Lemma stored_documents_canonical_witness :
  is_ascii (item_document item_A) /\
  Forall (fun c => is_upper c = false) (list_ascii_of_string (item_document item_A)) /\
  (forall c rest, item_document item_A = String c rest -> is_space c = false) /\
  (forall init c, item_document item_A = init +:+ String c "" -> is_space c = false).
Proof.
  apply (stored_documents_canonical (file_of [record_A]) empty_store
           (built [record_A]) [row_A] [item_A] item_A).
  - vm_compute. reflexivity.
  - vm_compute. reflexivity.
  - constructor; [|constructor]. unfold is_ascii. vm_compute. repeat constructor.
  - vm_compute. reflexivity.
  - left.
Defined.

Lemma run_pipeline_success_requires_witness :
  [row_A] ≠ [] /\
  load_model = true /\
  Forall (fun r => is_Some (encode (normalize (summary_text r)))) [row_A] /\
  Forall text_fields [row_A].
Proof.
  apply (run_pipeline_success_requires (file_of [record_A]) empty_store
           (built [record_A]) [row_A]).
  - vm_compute. reflexivity.
  - vm_compute. reflexivity.
  - constructor; [|constructor].
    repeat split; right; eexists; reflexivity.
Defined.

Lemma stored_embeddings_aligned_witness :
  encode (item_document item_A) = Some (item_embedding item_A).
Proof.
  apply (stored_embeddings_aligned (file_of [record_A]) empty_store
           (built [record_A]) item_A).
  - vm_compute. reflexivity.
  - vm_compute. left.
Defined.

Lemma run_pipeline_frame_witness :
  duckdb (run_pipeline (file_of [record_A]) stocked_store).1 !! "archive" =
    Some [row_A] /\
  chroma (run_pipeline (file_of [record_A]) stocked_store).1 !! "drafts" =
    Some [].
Proof.
  split.
  - rewrite (proj1 (run_pipeline_frame (file_of [record_A]) stocked_store "archive"));
      [reflexivity|discriminate|discriminate].
  - rewrite (proj2 (run_pipeline_frame (file_of [record_A]) stocked_store "drafts"));
      [reflexivity|discriminate].
Defined.

Lemma snapshot_independent_of_store_witness :
  exists st2',
    run_pipeline (file_of [record_A]) stocked_store = (st2', Ok tt) /\
    duckdb st2' !! RAW_TABLE = duckdb (built [record_A]) !! RAW_TABLE /\
    duckdb st2' !! CLEANED_TABLE = duckdb (built [record_A]) !! CLEANED_TABLE /\
    chroma st2' !! VECTOR_COLLECTION = chroma (built [record_A]) !! VECTOR_COLLECTION.
Proof.
  apply (snapshot_independent_of_store (file_of [record_A]) empty_store).
  vm_compute. reflexivity.
Defined.

Lemma extraction_failure_iff_witness :
  (run_pipeline (file_of [record_A; JStr "oops"]) stocked_store).2
    = Raise ExtractError /\
  (run_pipeline (file_of [record_A; JStr "oops"]) stocked_store).1 = stocked_store.
Proof.
  assert ((run_pipeline (file_of [record_A; JStr "oops"]) stocked_store).2
          = Raise ExtractError) as Hfail.
  { apply (proj1 (extraction_failure_iff (file_of [record_A; JStr "oops"])
                    stocked_store)).
    right. exists [record_A; JStr "oops"], (JStr "oops").
    split; [reflexivity|]. split; [right; left|reflexivity]. }
  split; [exact Hfail|].
  exact (proj2 (extraction_failure_iff (file_of [record_A; JStr "oops"])
                  stocked_store) Hfail).
Defined.

Lemma search_hits_from_records_witness :
  Forall (fun h => exists r, r ∈ [row_A] /\ h = hit_of_row r) [hit_of_row row_A].
Proof.
  apply Forall_forall.
  apply (search_hits_from_records (file_of [record_A]) empty_store
           (built [record_A]) [row_A] "alice smith").
  - vm_compute. reflexivity.
  - vm_compute. reflexivity.
  - constructor; [|constructor]. by exists "A1", "2024-01-01", "UNDISCOUNTED".
  - vm_compute. reflexivity.
Defined.

Lemma search_count_after_build_witness :
  exists hits,
    search_patents (built [record_A; record_3M; record_A; record_a]) "alice smith"
      = Results hits /\
    length hits = 3%nat.
Proof.
  apply (search_count_after_build (collab := first_char_model)
           (file_of [record_A; record_3M; record_A; record_a]) empty_store
           (built [record_A; record_3M; record_A; record_a])
           [record_A; record_3M; record_A; record_a] "alice smith" 97).
  - vm_compute. reflexivity.
  - reflexivity.
  - reflexivity.
Defined.

Lemma search_without_collection_witness :
  search_patents empty_store "alice smith" = Results [].
Proof.
  apply (search_without_collection (collab := first_char_model)
           empty_store "alice smith" 97); reflexivity.
Defined.

Lemma fingerprint_is_hex_digest_witness :
  String.length (source_fingerprint row_A) = 64%nat /\
  Forall (fun c => is_hex_char c = true)
    (list_ascii_of_string (source_fingerprint row_A)).
Proof.
  apply (fingerprint_is_hex_digest record_A row_A).
  vm_compute. reflexivity.
Defined.

End FurtherSamples.
